(** * Video link resolver (netlify/functions/parser.py)

    A shallow embedding of the serverless handler that resolves a shared
    video link into a download address, together with the properties that
    its description states about it.

    Modelling conventions.
    - A Python [str] is a Rocq [string].  The string methods the code uses
      ([lower], [strip], [in], [replace]) and the regular-expression classes
      ([\d], [\s]) are embedded with their behaviour on ASCII text; the
      Chinese messages of the source are kept as opaque literals.
    - A value decoded from JSON is a [json]; a Python [dict] is an
      association list in insertion order, read with [dict_get].
    - A raised exception is a [Raise e] result; [try]/[except] is a match
      on the result.
    - The network, the JSON decoder and the printing of floats and
      containers belong to libraries outside of the program: they are the
      fields of a [world].  The number of GET requests issued so far is
      threaded through as state. *)

From Stdlib Require Import String Ascii List ZArith QArith Lia Bool Arith.
From Stdlib Require Import Numbers.DecimalString.
Import ListNotations.

Close Scope Q_scope.
Open Scope list_scope.
Open Scope string_scope.

Set Implicit Arguments.
Set Warnings "-register-all".

(** ** Strings *)

Module Str.

Definition is_upper (c : ascii) : bool :=
  let n := nat_of_ascii c in (65 <=? n)%nat && (n <=? 90)%nat.

Definition lower_char (c : ascii) : ascii :=
  if is_upper c then ascii_of_nat (nat_of_ascii c + 32) else c.

(** [s.lower()] *)
Fixpoint lower (s : string) : string :=
  match s with
  | EmptyString => EmptyString
  | String c t => String (lower_char c) (lower t)
  end.

(** [s.startswith(p)] *)
Fixpoint starts_with (p s : string) : bool :=
  match p, s with
  | EmptyString, _ => true
  | String _ _, EmptyString => false
  | String a p', String b s' => Ascii.eqb a b && starts_with p' s'
  end.

(** [sub in s] on two strings *)
Fixpoint contains (sub s : string) : bool :=
  if starts_with sub s then true
  else match s with
       | EmptyString => false
       | String _ t => contains sub t
       end.

(** [s[n:]] *)
Fixpoint drop (n : nat) (s : string) : string :=
  match n, s with
  | O, _ => s
  | S _, EmptyString => EmptyString
  | S k, String _ t => drop k t
  end.

(** [s.replace(old, new)] for a non-empty [old]: the occurrences of [old]
    are replaced from left to right, and the scan resumes after each
    replaced occurrence.  [skip] counts the characters of a replaced
    occurrence that are still to be passed over. *)
Fixpoint replace_from (skip : nat) (old new s : string) : string :=
  match s with
  | EmptyString => EmptyString
  | String c t =>
      match skip with
      | S k => replace_from k old new t
      | O =>
          if starts_with old s
          then new ++ replace_from (String.length old - 1) old new t
          else String c (replace_from 0 old new t)
      end
  end.

Definition replace (old new s : string) : string := replace_from 0 old new s.

(** Characters for which [str.isspace] holds, in the ASCII range: they are
    the ones [strip] removes and [\s] matches. *)
Definition is_space (c : ascii) : bool :=
  let n := nat_of_ascii c in
  ((9 <=? n)%nat && (n <=? 13)%nat) || ((28 <=? n)%nat && (n <=? 32)%nat).

Fixpoint lstrip (s : string) : string :=
  match s with
  | EmptyString => EmptyString
  | String c t => if is_space c then lstrip t else s
  end.

Fixpoint rstrip (s : string) : string :=
  match s with
  | EmptyString => EmptyString
  | String c t =>
      match rstrip t with
      | EmptyString => if is_space c then EmptyString else String c EmptyString
      | r => String c r
      end
  end.

(** [s.strip()] *)
Definition strip (s : string) : string := rstrip (lstrip s).

(** [\d] *)
Definition is_digit (c : ascii) : bool :=
  let n := nat_of_ascii c in (48 <=? n)%nat && (n <=? 57)%nat.

(** The longest run of digits at the head of [s]. *)
Fixpoint take_digits (s : string) : string :=
  match s with
  | EmptyString => EmptyString
  | String c t => if is_digit c then String c (take_digits t) else EmptyString
  end.


Definition head_is_digit (s : string) : bool :=
  match s with
  | EmptyString => false
  | String c _ => is_digit c
  end.

(** Declarative counterparts, used to state what the functions compute. *)

(** [sub] occurs in [s] at offset [i]. *)
Definition occurs_at (sub s : string) (i : nat) : Prop :=
  exists pre post, s = pre ++ sub ++ post /\ String.length pre = i.

Definition occurs (sub s : string) : Prop := exists i, occurs_at sub s i.

(** [sub] occurs in [s] up to the case of the letters of [s]. *)
Definition occurs_nocase (sub s : string) : Prop :=
  exists pre mid post, s = pre ++ mid ++ post /\ lower mid = sub.

End Str.

(** ** Configuration *)

Module Config.

Definition REQUEST_TIMEOUT : Z := 30.

Definition MAX_RETRIES : nat := 3.

Definition USER_AGENTS : list string :=
  [ "Mozilla/5.0 (Windows NT 10.0; Win64; x64) AppleWebKit/537.36 (KHTML, like Gecko) Chrome/91.0.4472.124 Safari/537.36";
    "Mozilla/5.0 (Macintosh; Intel Mac OS X 10_15_7) AppleWebKit/537.36 (KHTML, like Gecko) Chrome/91.0.4472.124 Safari/537.36";
    "Mozilla/5.0 (Windows NT 10.0; Win64; x64; rv:89.0) Gecko/20100101 Firefox/89.0" ].

(** The registry, in the insertion order of the source dictionary. *)
Definition SUPPORTED_PLATFORMS : list (string * list string) :=
  [ ("douyin", ["douyin.com"; "dy.com"; "iesdouyin.com"]);
    ("kuaishou", ["kuaishou.com"; "ks.com"]);
    ("xiaohongshu", ["xiaohongshu.com"; "xhs.com"]);
    ("bilibili", ["bilibili.com"; "b23.tv"]);
    ("weishi", ["weishi.qq.com"]) ].

End Config.

(** ** Platform classification *)

(** The inner loop of [get_platform_from_url]: [for domain in domains]. *)
Fixpoint any_domain_in (domains : list string) (url_lower : string) : bool :=
  match domains with
  | [] => false
  | domain :: rest =>
      if Str.contains domain url_lower then true else any_domain_in rest url_lower
  end.

(** The outer loop: [for platform, domains in ....items()]. *)
Fixpoint first_platform (platforms : list (string * list string))
                        (url_lower : string) : option string :=
  match platforms with
  | [] => None
  | (platform, domains) :: rest =>
      if any_domain_in domains url_lower then Some platform
      else first_platform rest url_lower
  end.

Definition get_platform_from_url (url : string) : option string :=
  let url_lower := Str.lower url in
  first_platform Config.SUPPORTED_PLATFORMS url_lower.

(** ** Values decoded from JSON *)

Inductive json : Type :=
| JNull
| JBool (b : bool)
| JInt (z : Z)
| JFloat (q : Q)          (* the double nearest to [q] *)
| JStr (s : string)
| JList (l : list json)
| JDict (d : list (string * json)).

(** [d.get(key)] on a dictionary, [None] when the key is absent. *)
Fixpoint dict_get (d : list (string * json)) (key : string) : option json :=
  match d with
  | [] => None
  | (k, v) :: rest => if String.eqb k key then Some v else dict_get rest key
  end.

(** Python truth value: what [if v] and [not v] test. *)
Definition truthy (v : json) : bool :=
  match v with
  | JNull => false
  | JBool b => b
  | JInt z => negb (Z.eqb z 0%Z)
  | JFloat q => negb (Qeq_bool q 0%Q)
  | JStr s => negb (String.eqb s "")
  | JList l => match l with [] => false | _ => true end
  | JDict d => match d with [] => false | _ => true end
  end.

Definition type_name (v : json) : string :=
  match v with
  | JNull => "NoneType"
  | JBool _ => "bool"
  | JInt _ => "int"
  | JFloat _ => "float"
  | JStr _ => "str"
  | JList _ => "list"
  | JDict _ => "dict"
  end.

(** [v == s] for a string [s] *)
Definition eq_str (v : json) (s : string) : bool :=
  match v with
  | JStr t => String.eqb t s
  | _ => false
  end.

Definition opt_eq_str (v : option json) (s : string) : bool :=
  match v with
  | Some x => eq_str x s
  | None => false
  end.

(** ** Exceptions and results *)

Inductive exn : Type :=
| ValueError (msg : string)
| JSONDecodeError (msg : string)      (* a subclass of ValueError *)
| RequestException (msg : string)     (* requests.RequestException and its subclasses *)
| AttributeError (msg : string)
| TypeError (msg : string)
| KeyError (msg : string)
| IndexError (msg : string)
| OverflowError (msg : string).

(** [str(e)] *)
Definition str_of_exn (e : exn) : string :=
  match e with
  | ValueError m | JSONDecodeError m | RequestException m | AttributeError m
  | TypeError m | KeyError m | IndexError m | OverflowError m => m
  end.

(** [except ValueError] *)
Definition is_ValueError (e : exn) : bool :=
  match e with
  | ValueError _ | JSONDecodeError _ => true
  | _ => false
  end.

(** [except requests.RequestException] *)
Definition is_RequestException (e : exn) : bool :=
  match e with
  | RequestException _ => true
  | _ => false
  end.

(** The faults that are not raised by the program's own [raise] statements
    nor by the network layer. *)
Definition is_internal_fault (e : exn) : bool :=
  match e with
  | ValueError _ | RequestException _ => false
  | _ => true
  end.

Inductive result (A : Type) : Type :=
| Ok (a : A)
| Raise (e : exn).

Arguments Ok {A} a.
Arguments Raise {A} e.

(** A computation that may raise and that counts the GET requests issued. *)
Definition M (A : Type) : Type := nat -> result A * nat.

Definition ret {A} (a : A) : M A := fun n => (Ok a, n).

Definition raise {A} (e : exn) : M A := fun n => (Raise e, n).

Definition pure {A} (r : result A) : M A := fun n => (r, n).

Definition bind {A B} (c : M A) (k : A -> M B) : M B :=
  fun n =>
    match c n with
    | (Ok a, n') => k a n'
    | (Raise e, n') => (Raise e, n')
    end.

Notation "x <- c ;; k" := (bind c (fun x => k))
  (at level 61, c at next level, right associativity).

(** [try: c except Exception as e: raise ValueError(prefix + str(e))] *)
Definition rewrap {A} (prefix : string) (c : M A) : M A :=
  fun n =>
    match c n with
    | (Ok a, n') => (Ok a, n')
    | (Raise e, n') => (Raise (ValueError (prefix ++ str_of_exn e)), n')
    end.

(** ** Operations of the interpreter on decoded values *)

Definition no_attribute (v : json) (attr : string) : exn :=
  AttributeError ("'" ++ type_name v ++ "' object has no attribute '" ++ attr ++ "'").

(** [v.get(key, default)] *)
Definition py_get (v : json) (key : string) (default : json) : result json :=
  match v with
  | JDict d => Ok (match dict_get d key with Some x => x | None => default end)
  | _ => Raise (no_attribute v "get")
  end.

(** [key in v] for a string [key] *)
Definition py_in (key : string) (v : json) : result bool :=
  match v with
  | JDict d => Ok (match dict_get d key with Some _ => true | None => false end)
  | JList l => Ok (existsb (fun x => eq_str x key) l)
  | JStr s => Ok (Str.contains key s)
  | _ => Raise (TypeError ("argument of type '" ++ type_name v ++ "' is not iterable"))
  end.

(** [v[key]] for a string [key] *)
Definition py_item (v : json) (key : string) : result json :=
  match v with
  | JDict d =>
      match dict_get d key with
      | Some x => Ok x
      | None => Raise (KeyError ("'" ++ key ++ "'"))
      end
  | JList _ => Raise (TypeError "list indices must be integers or slices, not str")
  | JStr _ => Raise (TypeError "string indices must be integers")
  | _ => Raise (TypeError ("'" ++ type_name v ++ "' object is not subscriptable"))
  end.

(** [v[0]]; the keys of a decoded dictionary are strings, so [0] is never
    one of them. *)
Definition py_item0 (v : json) : result json :=
  match v with
  | JList (x :: _) => Ok x
  | JList [] => Raise (IndexError "list index out of range")
  | JStr (String c _) => Ok (JStr (String c EmptyString))
  | JStr EmptyString => Raise (IndexError "string index out of range")
  | JDict _ => Raise (KeyError "0")
  | _ => Raise (TypeError ("'" ++ type_name v ++ "' object is not subscriptable"))
  end.

(** [v.replace(old, new)] *)
Definition py_replace (v : json) (old new : string) : result json :=
  match v with
  | JStr s => Ok (JStr (Str.replace old new s))
  | _ => Raise (no_attribute v "replace")
  end.

(** [v.strip()] *)
Definition py_strip (v : json) : result string :=
  match v with
  | JStr s => Ok (Str.strip s)
  | _ => Raise (no_attribute v "strip")
  end.

(** The least magnitude of an integer whose quotient by 1000 rounds to a
    double out of range. *)
Definition truediv_overflow : Z := (1000 * (2 ^ 1024 - 2 ^ 970))%Z.

(** [v / 1000] *)
Definition py_div_1000 (v : json) : result json :=
  match v with
  | JInt z =>
      if (Z.abs z <? truediv_overflow)%Z then Ok (JFloat (inject_Z z / 1000)%Q)
      else Raise (OverflowError "integer division result too large for a float")
  | JBool b => Ok (JFloat (inject_Z (if b then 1 else 0) / 1000)%Q)
  | JFloat q => Ok (JFloat (q / 1000)%Q)
  | _ => Raise (TypeError ("unsupported operand type(s) for /: '" ++ type_name v
                             ++ "' and 'int'"))
  end.

Definition string_of_Z (z : Z) : string := NilEmpty.string_of_int (Z.to_int z).

(** ** The world outside of the program *)

Record response : Type := {
  status_code : Z;
  reason : string;
  resp_url : string;
  resp_headers : list (string * string);
  text : string
}.

(** What [session.get] does: it returns a response or raises an exception
    of the [requests] hierarchy. *)
Inductive get_outcome : Type :=
| Responded (r : response)
| Failed (msg : string).

(** What [json.loads] does: it returns the decoded value or raises
    [JSONDecodeError]. *)
Inductive decoded : Type :=
| Decoded (v : json)
| Undecodable (msg : string).

Record world : Type := {
  (** the outcome of the [n]-th GET of the invocation, for the given url,
      session headers and [allow_redirects] flag *)
  session_get : nat -> string -> list (string * string) -> bool -> get_outcome;
  json_loads : string -> decoded;
  (** [str(v)] for a float, a list or a dictionary *)
  repr_of : json -> string
}.

Definition loads (W : world) (s : string) : result json :=
  match json_loads W s with
  | Decoded v => Ok v
  | Undecodable msg => Raise (JSONDecodeError msg)
  end.

(** [str(v)], as f-strings apply it *)
Definition py_str (W : world) (v : json) : string :=
  match v with
  | JStr s => s
  | JNull => "None"
  | JBool true => "True"
  | JBool false => "False"
  | JInt z => string_of_Z z
  | _ => repr_of W v
  end.

(** [headers.get(name, default)] on the case-insensitive headers of a
    response *)
Fixpoint header_get (hs : list (string * string)) (name default : string) : string :=
  match hs with
  | [] => default
  | (k, v) :: rest =>
      if String.eqb (Str.lower k) (Str.lower name) then v
      else header_get rest name default
  end.

(** [response.raise_for_status()] of the [requests] library: an [HTTPError]
    for the client and server error codes, nothing otherwise. *)
Definition raise_for_status (r : response) : result unit :=
  if (400 <=? status_code r)%Z && (status_code r <? 500)%Z then
    Raise (RequestException (string_of_Z (status_code r) ++ " Client Error: "
                               ++ reason r ++ " for url: " ++ resp_url r))
  else if (500 <=? status_code r)%Z && (status_code r <? 600)%Z then
    Raise (RequestException (string_of_Z (status_code r) ++ " Server Error: "
                               ++ reason r ++ " for url: " ++ resp_url r))
  else Ok tt.

(** ** HTTP requests *)

Definition default_headers : list (string * string) :=
  [ ("User-Agent", nth 0 Config.USER_AGENTS "");
    ("Accept", "text/html,application/xhtml+xml,application/xml;q=0.9,image/webp,*/*;q=0.8");
    ("Accept-Language", "zh-CN,zh;q=0.8,en-US;q=0.5,en;q=0.3");
    ("Accept-Encoding", "gzip, deflate");
    ("DNT", "1");
    ("Connection", "keep-alive");
    ("Upgrade-Insecure-Requests", "1") ].

(** The body of the [try] of [make_request]: one GET, then
    [raise_for_status]. *)
Definition attempt_get (W : world) (url : string) (headers : list (string * string))
                       (follow_redirects : bool) : M response :=
  fun n =>
    match session_get W n url headers follow_redirects with
    | Failed msg => (Raise (RequestException msg), S n)
    | Responded r =>
        match raise_for_status r with
        | Ok _ => (Ok r, S n)
        | Raise e => (Raise e, S n)
        end
    end.

(** [for attempt in range(max_retries)], with [todo] iterations left. *)
Fixpoint retry_loop (W : world) (url : string) (headers : list (string * string))
                    (follow_redirects : bool) (max_retries todo attempt : nat)
  : M response :=
  match todo with
  | O => raise (RequestException "请求失败，已达到最大重试次数")
  | S todo' =>
      fun n =>
        match attempt_get W url headers follow_redirects n with
        | (Ok r, n') => (Ok r, n')
        | (Raise e, n') =>
            if is_RequestException e then
              if (attempt =? max_retries - 1)%nat then (Raise e, n')
              else retry_loop W url headers follow_redirects max_retries todo'
                              (S attempt) n'
            else (Raise e, n')
        end
  end.

Definition make_request_with (max_retries : nat) (W : world) (url : string)
    (headers : option (list (string * string))) (follow_redirects : bool)
  : M response :=
  let headers := match headers with Some h => h | None => default_headers end in
  retry_loop W url headers follow_redirects max_retries max_retries 0.

Definition make_request : world -> string -> option (list (string * string)) -> bool
                          -> M response :=
  make_request_with Config.MAX_RETRIES.

(** ** Regular-expression searches

    Each function returns group 1 of the leftmost match, as
    [re.search(pattern, s)] followed by [match.group(1)] does, and [None]
    when the pattern matches nowhere. *)

Module Re.

(** [re.search]: the pattern is tried at each position of the text, from
    the left; [here] matches the pattern anchored at the head of its
    argument and returns group 1. *)
Fixpoint search (here : string -> option string) (s : string) : option string :=
  match here s with
  | Some g => Some g
  | None => match s with
            | EmptyString => None
            | String _ t => search here t
            end
  end.

(** [lit(\d+)] anchored at the head of [s], for a literal [lit]: the digits
    are matched greedily, so the group is the whole run of digits. *)
Definition match_literal_digits (lit s : string) : option string :=
  if Str.starts_with lit s && Str.head_is_digit (Str.drop (String.length lit) s)
  then Some (Str.take_digits (Str.drop (String.length lit) s))
  else None.

(** [re.search(lit + r'(\d+)', s)] *)
Definition search_literal_digits (lit : string) : string -> option string :=
  search (match_literal_digits lit).

(** [$] without MULTILINE: the end of the text, or the position of a line
    feed that is its last character. *)
Definition at_end (s : string) : bool :=
  match s with
  | EmptyString => true
  | String c EmptyString => Ascii.eqb c "010"%char
  | _ => false
  end.

(** [/(\d+)/?$] anchored at the head of [s]. *)
Definition match_trailing_digits (s : string) : option string :=
  match s with
  | String c t =>
      if Ascii.eqb c "/"%char then
        let d := Str.take_digits t in
        let r := Str.drop (String.length d) t in
        if negb (String.eqb d "")
           && (at_end r
               || match r with
                  | String c' r' => Ascii.eqb c' "/"%char && at_end r'
                  | EmptyString => false
                  end)
        then Some d else None
      else None
  | EmptyString => None
  end.

(** [re.search(r'/(\d+)/?$', s)] *)
Definition search_trailing_digits : string -> option string :=
  search match_trailing_digits.

(** The text before the first occurrence of [closing] in [s]: what a lazy
    [.*?] followed by [closing] consumes under DOTALL. *)
Fixpoint until (closing s : string) : option string :=
  if Str.starts_with closing s then Some EmptyString
  else match s with
       | EmptyString => None
       | String c t => option_map (String c) (until closing t)
       end.

(** [name \s* = \s* ({.*?}) rest] anchored at the head of [s], where the
    group ends with the brace that starts [closing = "}" ++ rest]. *)
Definition match_assignment (name closing s : string) : option string :=
  if Str.starts_with name s then
    match Str.lstrip (Str.drop (String.length name) s) with
    | String c1 r1 =>
        if Ascii.eqb c1 "="%char then
          match Str.lstrip r1 with
          | String c2 r2 =>
              if Ascii.eqb c2 "{"%char then
                match until closing r2 with
                | Some inner => Some ("{" ++ inner ++ "}")
                | None => None
                end
              else None
          | EmptyString => None
          end
        else None
    | EmptyString => None
    end
  else None.

Definition search_assignment (name closing : string) : string -> option string :=
  search (match_assignment name closing).

End Re.

(** ** Parsers *)

Record VideoParser : Type := {
  platform_name : string;
  parse : world -> string -> M json
}.

Definition rbind {A B} (r : result A) (k : A -> result B) : result B :=
  match r with
  | Ok a => k a
  | Raise e => Raise e
  end.

Notation "'let?' x := r 'in' k" := (rbind r (fun x => k))
  (at level 10, x name, r at level 100, k at level 200).

Module DouyinParser.

Definition platform_name : string := "抖音".

Definition patterns : list (string -> option string) :=
  [ Re.search_literal_digits "/video/";
    Re.search_literal_digits "item_ids=";
    Re.search_trailing_digits ].

(** [for pattern in patterns: ... if match: return match.group(1)] *)
Fixpoint first_group (ps : list (string -> option string)) (url : string)
  : option string :=
  match ps with
  | [] => None
  | pattern :: rest =>
      match pattern url with
      | Some g => Some g
      | None => first_group rest url
      end
  end.

Definition _extract_video_id (url : string) : option string :=
  first_group patterns url.

(** [url.replace('watermark=1', 'watermark=0')] *)
Definition rewrite_watermark (download_url : string) : string :=
  Str.replace "watermark=1" "watermark=0" download_url.

(** The redirect target of a 301 or 302 answer, and the url itself
    otherwise. *)
Definition real_url (response : response) (url : string) : string :=
  if (status_code response =? 301)%Z || (status_code response =? 302)%Z
  then header_get (resp_headers response) "Location" url
  else url.

(** What [parse] does with the decoded answer of the API. *)
Definition extract (video_id : string) (data : json) : result json :=
  let? has_items := py_in "item_list" data in
  let? malformed := (if negb has_items then Ok true
                     else let? l := py_item data "item_list" in
                          Ok (negb (truthy l))) in
  if (malformed : bool) then Raise (ValueError "API响应格式错误") else
  let? item_list := py_item data "item_list" in
  let? item := py_item0 item_list in
  let? video_info := py_get item "video" (JDict []) in
  let? play_addr := py_get video_info "play_addr" (JDict []) in
  let? has_urls := py_in "url_list" play_addr in
  let? download_url := (if (has_urls : bool) then
                          let? l := py_item play_addr "url_list" in
                          if truthy l then py_item0 l else Ok JNull
                        else Ok JNull) in
  if negb (truthy download_url) then Raise (ValueError "无法获取视频下载链接") else
  let? download_url := py_replace download_url "watermark=1" "watermark=0" in
  let? title := py_get item "desc" (JStr "抖音视频") in
  let? author := (let? a := py_get item "author" (JDict []) in
                  py_get a "nickname" (JStr "")) in
  let? duration := (let? d := py_get video_info "duration" (JInt 0) in
                    py_div_1000 d) in
  Ok (JDict [ ("success", JBool true);
              ("title", title);
              ("download_url", download_url);
              ("platform", JStr platform_name);
              ("video_id", JStr video_id);
              ("author", author);
              ("duration", duration);
              ("size", JStr "未知");
              ("filename", JStr ("douyin_" ++ video_id ++ ".mp4")) ]).

Definition api_url (video_id : string) : string :=
  "https://www.iesdouyin.com/web/api/v2/aweme/iteminfo/?item_ids=" ++ video_id.

(** The body of the [try] of [parse]. *)
Definition parse_body (W : world) (url : string) : M json :=
  response <- make_request W url None false ;;
  let real_url := real_url response url in
  match _extract_video_id real_url with
  | None => raise (ValueError "无法提取视频ID")
  | Some video_id =>
      if String.eqb video_id "" then raise (ValueError "无法提取视频ID") else
      let headers := [ ("User-Agent", nth 0 Config.USER_AGENTS "");
                       ("Referer", "https://www.douyin.com/") ] in
      api_response <- make_request W (api_url video_id) (Some headers) true ;;
      data <- pure (loads W (text api_response)) ;;
      pure (extract video_id data)
  end.

Definition error_prefix : string := "抖音视频解析失败: ".

Definition parse (W : world) (url : string) : M json :=
  rewrap error_prefix (parse_body W url).

End DouyinParser.

Module KuaishouParser.

Definition platform_name : string := "快手".

(** [r'window\.pageData\s*=\s*({.*?});'] with DOTALL *)
Definition search_page_data (html_content : string) : option string :=
  Re.search_assignment "window.pageData" "};" html_content.

(** [video_info.get('srcNoMark') or video_info.get('src')] *)
Definition select_video_url (video_info : json) : result json :=
  let? no_mark := py_get video_info "srcNoMark" JNull in
  if truthy no_mark then Ok no_mark else py_get video_info "src" JNull.

(** What [parse] does with the decoded page data. *)
Definition extract (W : world) (page_data : json) : result json :=
  let? video_info := py_get page_data "videoInfo" (JDict []) in
  if negb (truthy video_info) then Raise (ValueError "页面数据中无视频信息") else
  let? video_url := select_video_url video_info in
  if negb (truthy video_url) then Raise (ValueError "无法获取视频下载链接") else
  let? title := py_get video_info "title" (JStr "快手视频") in
  let? author := py_get video_info "userName" (JStr "") in
  let? photo := py_get video_info "photoId" (JStr "video") in
  Ok (JDict [ ("success", JBool true);
              ("title", title);
              ("download_url", video_url);
              ("platform", JStr platform_name);
              ("author", author);
              ("size", JStr "未知");
              ("filename", JStr ("kuaishou_" ++ py_str W photo ++ ".mp4")) ]).

Definition parse_body (W : world) (url : string) : M json :=
  response <- make_request W url None true ;;
  let html_content := text response in
  match search_page_data html_content with
  | None => raise (ValueError "无法找到页面数据")
  | Some script =>
      page_data <- pure (loads W script) ;;
      pure (extract W page_data)
  end.

Definition error_prefix : string := "快手视频解析失败: ".

Definition parse (W : world) (url : string) : M json :=
  rewrap error_prefix (parse_body W url).

End KuaishouParser.

Module XiaohongshuParser.

Definition platform_name : string := "小红书".

(** [r'window\.__INITIAL_STATE__\s*=\s*({.*?})</script>'] with DOTALL *)
Definition search_state (html_content : string) : option string :=
  Re.search_assignment "window.__INITIAL_STATE__" "}</script>" html_content.

(** [for note_id, note_info in note_detail.items()] *)
Fixpoint first_video_note (items : list (string * json)) : result (option json) :=
  match items with
  | [] => Ok None
  | (note_id, note_info) :: rest =>
      let? note := py_get note_info "note" (JDict []) in
      let? type := py_get note "type" JNull in
      if eq_str type "video" then
        let? video_info := py_get note "video" (JDict []) in
        let? title := py_get note "title" (JStr "") in
        let? user := py_get note "user" (JDict []) in
        let? author := py_get user "nickname" (JStr "") in
        let? media := py_get video_info "media" (JDict []) in
        let? video_key := py_get media "videoKey" (JStr "") in
        Ok (Some (JDict [ ("note_id", JStr note_id);
                          ("title", title);
                          ("author", author);
                          ("video_url", video_key) ]))
      else first_video_note rest
  end.

Definition _extract_note_data (initial_state : json) : option json :=
  let found :=
    let? note := py_get initial_state "note" (JDict []) in
    let? note_detail := py_get note "noteDetailMap" (JDict []) in
    match note_detail with
    | JDict items => first_video_note items
    | _ => Raise (no_attribute note_detail "items")
    end in
  match found with
  | Ok r => r
  | Raise _ => None
  end.

(** What [parse] does with the decoded state. *)
Definition extract (W : world) (initial_state : json) : result json :=
  match _extract_note_data initial_state with
  | None => Raise (ValueError "无法提取笔记数据")
  | Some note_data =>
      if negb (truthy note_data) then Raise (ValueError "无法提取笔记数据") else
      let? video_url := py_get note_data "video_url" JNull in
      if negb (truthy video_url) then Raise (ValueError "无法获取视频下载链接") else
      let? title := py_get note_data "title" (JStr "小红书视频") in
      let? author := py_get note_data "author" (JStr "") in
      let? note_id := py_get note_data "note_id" (JStr "video") in
      Ok (JDict [ ("success", JBool true);
                  ("title", title);
                  ("download_url", video_url);
                  ("platform", JStr platform_name);
                  ("author", author);
                  ("size", JStr "未知");
                  ("filename", JStr ("xiaohongshu_" ++ py_str W note_id ++ ".mp4")) ])
  end.

Definition parse_body (W : world) (url : string) : M json :=
  let headers := [ ("User-Agent", nth 0 Config.USER_AGENTS "");
                   ("Referer", "https://www.xiaohongshu.com/") ] in
  response <- make_request W url (Some headers) true ;;
  let html_content := text response in
  match search_state html_content with
  | None => raise (ValueError "无法找到页面状态数据")
  | Some script =>
      initial_state <- pure (match loads W script with
                             | Raise (JSONDecodeError _) =>
                                 Raise (ValueError "页面数据解析失败")
                             | r => r
                             end) ;;
      pure (extract W initial_state)
  end.

Definition error_prefix : string := "小红书视频解析失败: ".

Definition parse (W : world) (url : string) : M json :=
  rewrap error_prefix (parse_body W url).

End XiaohongshuParser.

(** ** Parser factory *)

Definition parsers : list (string * VideoParser) :=
  [ ("douyin", {| platform_name := DouyinParser.platform_name;
                  parse := DouyinParser.parse |});
    ("kuaishou", {| platform_name := KuaishouParser.platform_name;
                    parse := KuaishouParser.parse |});
    ("xiaohongshu", {| platform_name := XiaohongshuParser.platform_name;
                       parse := XiaohongshuParser.parse |}) ].

Fixpoint lookup {A} (l : list (string * A)) (key : string) : option A :=
  match l with
  | [] => None
  | (k, v) :: rest => if String.eqb k key then Some v else lookup rest key
  end.

Definition get_parser (platform : string) : option VideoParser :=
  lookup parsers platform.

(** ** The handler *)

Record http_response : Type := {
  statusCode : Z;
  headers : list (string * string);
  body : json       (* the value handed to [json.dumps] *)
}.

Definition cors_headers : list (string * string) :=
  [ ("Access-Control-Allow-Origin", "*");
    ("Access-Control-Allow-Headers", "Content-Type");
    ("Access-Control-Allow-Methods", "POST, OPTIONS");
    ("Content-Type", "application/json") ].

Definition respond (code : Z) (payload : json) : http_response :=
  {| statusCode := code; headers := cors_headers; body := payload |}.

Definition failure (code : Z) (message : string) : http_response :=
  respond code (JDict [ ("success", JBool false); ("message", JStr message) ]).

Definition msg_post_only : string := "只支持POST请求".
Definition msg_malformed : string := "请求数据格式错误".
Definition msg_url_required : string := "请提供视频链接".
Definition msg_unsupported : string := "不支持此平台，目前支持抖音、快手、小红书等平台".
Definition msg_not_implemented (platform : string) : string := platform ++ "解析器暂未实现".
Definition msg_internal : string := "服务器内部错误，请稍后重试".

(** The request data: [json.loads(event['body'])] for a string body,
    [event.get('body', {})] otherwise. *)
Definition request_data (W : world) (event : list (string * json)) : result json :=
  match dict_get event "body" with
  | Some (JStr s) => loads W s
  | Some v => Ok v
  | None => Ok (JDict [])
  end.

(** [request_data.get('url', '').strip()] *)
Definition requested_url (data : json) : result string :=
  let? u := py_get data "url" (JStr "") in
  py_strip u.

(** The body of the outermost [try] of [handler]. *)
Definition handler_body (W : world) (event : list (string * json)) : M http_response :=
  if opt_eq_str (dict_get event "httpMethod") "OPTIONS" then
    ret (respond 200 (JDict [ ("message", JStr "CORS preflight") ]))
  else if negb (opt_eq_str (dict_get event "httpMethod") "POST") then
    ret (failure 405 msg_post_only)
  else
    match request_data W event with
    | Raise (JSONDecodeError _) => ret (failure 400 msg_malformed)
    | Raise e => raise e
    | Ok data =>
        video_url <- pure (requested_url data) ;;
        if String.eqb video_url "" then ret (failure 400 msg_url_required) else
        match get_platform_from_url video_url with
        | None => ret (failure 400 msg_unsupported)
        | Some platform =>
            if String.eqb platform "" then ret (failure 400 msg_unsupported) else
            match get_parser platform with
            | None => ret (failure 500 (msg_not_implemented platform))
            | Some parser =>
                fun n =>
                  match parse parser W video_url n with
                  | (Ok result, n') => (Ok (respond 200 result), n')
                  | (Raise e, n') =>
                      if is_ValueError e
                      then (Ok (failure 400 (str_of_exn e)), n')
                      else (Raise e, n')
                  end
            end
        end
    end.

(** [handler(event, context)]: every exception that leaves the body is
    answered with the generic failure. *)
Definition handler (W : world) (event : list (string * json)) : nat -> http_response * nat :=
  fun n =>
    match handler_body W event n with
    | (Ok r, n') => (r, n')
    | (Raise _, n') => (failure 500 msg_internal, n')
    end.

(** * Vocabulary of the properties *)

(** ** Classification *)

(** A domain of the list occurs in the lowered url. *)
Definition domain_occurs (domains : list string) (url_lower : string) : Prop :=
  exists d, In d domains /\ Str.occurs d url_lower.

(** ** Requests *)

(** The [k]-th GET raises an exception of the network layer. *)
Definition attempt_fails (W : world) (url : string) (hs : list (string * string))
    (follow : bool) (k : nat) (msg : string) : Prop :=
  attempt_get W url hs follow k = (Raise (RequestException msg), S k).

(** The headers [make_request] installs in its session. *)
Definition request_headers (headers : option (list (string * string)))
  : list (string * string) :=
  match headers with Some h => h | None => default_headers end.

(** The number of GET requests a computation issues when started at [n]. *)
Definition gets_issued {A} (c : M A) (n : nat) : nat := snd (c n) - n.

(** ** The watermark flag *)

Definition flag_on : string := "watermark=1".
Definition flag_off : string := "watermark=0".

(** ** Identifier patterns *)

(** The anchored patterns, stated on the text they match: [r] is the text
    from the position of the match on, [d] is group 1. *)








(** ** Strategies *)

(** The exception handler and the body of each strategy. *)
Definition strategy_bodies : list (string * (string * (world -> string -> M json))) :=
  [ ("douyin", (DouyinParser.error_prefix, DouyinParser.parse_body));
    ("kuaishou", (KuaishouParser.error_prefix, KuaishouParser.parse_body));
    ("xiaohongshu", (XiaohongshuParser.error_prefix, XiaohongshuParser.parse_body)) ].


(** [r] is a success record whose download url is [u]. *)
Definition success_with (r : result json) (u : json) : Prop :=
  exists fields,
    r = Ok (JDict fields)
    /\ dict_get fields "success" = Some (JBool true)
    /\ dict_get fields "download_url" = Some u.


(** The field [key] of the object is absent or holds an empty value. *)
Definition yields_nothing (fields : list (string * json)) (key : string) : Prop :=
  forall u, dict_get fields key = Some u -> truthy u = false.

(** ** Answers of the handler *)

Definition is_post (event : list (string * json)) : Prop :=
  dict_get event "httpMethod" = Some (JStr "POST").

(** The event is a POST whose request data asks for [url]. *)
Definition asks_for (W : world) (event : list (string * json)) (url : string) : Prop :=
  is_post event
  /\ exists data, request_data W event = Ok data /\ requested_url data = Ok url.

(** The rows of the table of answers: the condition of each row and the
    answer it prescribes, for an invocation that starts after [n] GETs. *)
Inductive behaviour (W : world) (event : list (string * json)) (n : nat)
  : http_response * nat -> Prop :=
| on_preflight :
    dict_get event "httpMethod" = Some (JStr "OPTIONS") ->
    behaviour W event n (respond 200 (JDict [ ("message", JStr "CORS preflight") ]), n)
| on_other_method :
    dict_get event "httpMethod" <> Some (JStr "OPTIONS") ->
    dict_get event "httpMethod" <> Some (JStr "POST") ->
    behaviour W event n (failure 405 msg_post_only, n)
| on_unparsable_body (m : string) :
    is_post event ->
    request_data W event = Raise (JSONDecodeError m) ->
    behaviour W event n (failure 400 msg_malformed, n)
| on_missing_url :
    asks_for W event "" ->
    behaviour W event n (failure 400 msg_url_required, n)
| on_unknown_platform (url : string) :
    asks_for W event url -> url <> "" ->
    get_platform_from_url url = None ->
    behaviour W event n (failure 400 msg_unsupported, n)
| on_unregistered_strategy (url platform : string) :
    asks_for W event url -> url <> "" ->
    get_platform_from_url url = Some platform ->
    get_parser platform = None ->
    behaviour W event n (failure 500 (msg_not_implemented platform), n)
| on_strategy_failure (url platform : string) (parser : VideoParser) (e : exn) (n' : nat) :
    asks_for W event url -> url <> "" ->
    get_platform_from_url url = Some platform ->
    get_parser platform = Some parser ->
    parse parser W url n = (Raise e, n') ->
    behaviour W event n (failure 400 (str_of_exn e), n')
| on_strategy_success (url platform : string) (parser : VideoParser) (record : json)
                      (n' : nat) :
    asks_for W event url -> url <> "" ->
    get_platform_from_url url = Some platform ->
    get_parser platform = Some parser ->
    parse parser W url n = (Ok record, n') ->
    behaviour W event n (respond 200 record, n')
| on_internal_fault (data : json) (e : exn) :
    is_post event ->
    request_data W event = Ok data ->
    requested_url data = Raise e ->
    behaviour W event n (failure 500 msg_internal, n).

(** What [handler] does once the url has been read from the request. *)
Definition answer (W : world) (url : string) (n : nat) : http_response * nat :=
  if String.eqb url "" then (failure 400 msg_url_required, n) else
  match get_platform_from_url url with
  | None => (failure 400 msg_unsupported, n)
  | Some platform =>
      match get_parser platform with
      | None => (failure 500 (msg_not_implemented platform), n)
      | Some parser =>
          match parse parser W url n with
          | (Ok record, n') => (respond 200 record, n')
          | (Raise e, n') => (failure 400 (str_of_exn e), n')
          end
      end
  end.

(** ** Shape of an answer *)

(** The [success] field of the body of an answer. *)
Definition body_success (b : json) : option json :=
  match b with
  | JDict fields => dict_get fields "success"
  | _ => None
  end.

(** The body of a failure: [success] is false and [message] is a text. *)
Definition is_failure_body (b : json) : Prop :=
  exists m, b = JDict [ ("success", JBool false); ("message", JStr m) ].

(** ** Fields and their defaults *)

(** The value of the field [key], or [default] when the field is absent:
    what [d.get(key, default)] returns. *)
Definition field_or (d : list (string * json)) (key : string) (default : json) : json :=
  match dict_get d key with
  | Some x => x
  | None => default
  end.

(** The fields of the object held by the field [key], none when the field
    is absent. *)
Definition object_or_empty (d : list (string * json)) (key : string)
  : list (string * json) :=
  match dict_get d key with
  | Some (JDict fields) => fields
  | _ => []
  end.

(** The field [key] is absent or holds an object. *)
Definition absent_or_object (d : list (string * json)) (key : string) : Prop :=
  forall x, dict_get d key = Some x -> exists fields, x = JDict fields.

(** ** Notes of the third platform *)

(** An entry of the note map that the traversal passes over: an object
    whose note, when it has one, is an object of another type than video. *)
Definition is_other_note (info : json) : Prop :=
  exists fields,
    info = JDict fields
    /\ absent_or_object fields "note"
    /\ eq_str (field_or (object_or_empty fields "note") "type" JNull) "video" = false.

(** An entry of the note map whose note [note] is marked as a video. *)
Definition is_video_note (info : json) (note : list (string * json)) : Prop :=
  exists fields,
    info = JDict fields
    /\ dict_get fields "note" = Some (JDict note)
    /\ dict_get note "type" = Some (JStr "video").

(** The state holds the note map [items]. *)
Definition note_map (state : json) (items : list (string * json)) : Prop :=
  exists st nd,
    state = JDict st
    /\ dict_get st "note" = Some (JDict nd)
    /\ dict_get nd "noteDetailMap" = Some (JDict items).

(** The video key of a note: the download reference of the third
    strategy. *)
Definition video_key (note : list (string * json)) : json :=
  field_or (object_or_empty (object_or_empty note "video") "media") "videoKey" (JStr "").

(** What the traversal returns for the video note [note] filed under
    [note_id]. *)
Definition note_record (note_id : string) (note : list (string * json)) : json :=
  JDict [ ("note_id", JStr note_id);
          ("title", field_or note "title" (JStr ""));
          ("author", field_or (object_or_empty note "user") "nickname" (JStr ""));
          ("video_url", video_key note) ].

(** The objects a video note may hold are objects indeed. *)
Definition well_formed_note (note : list (string * json)) : Prop :=
  absent_or_object note "video"
  /\ absent_or_object note "user"
  /\ absent_or_object (object_or_empty note "video") "media".

(** ** Inline assignments *)



(** * Concrete worlds *)

Definition refused : string := "connection refused".

Definition plain_response (code : Z) (hdrs : list (string * string)) (content : string)
  : response :=
  {| status_code := code; reason := "";
     resp_url := "https://v.douyin.com/abc/"; resp_headers := hdrs; text := content |}.

(** Every GET fails. *)
Definition world_down : world :=
  {| session_get := fun _ _ _ _ => Failed refused;
     json_loads := fun _ => Undecodable "Expecting value";
     repr_of := fun _ => "" |}.

(** The first [k] GETs fail, the later ones answer [r]. *)
Definition world_up_after (k : nat) (r : response) : world :=
  {| session_get := fun n _ _ _ => if (n <? k)%nat then Failed refused else Responded r;
     json_loads := fun _ => Undecodable "Expecting value";
     repr_of := fun _ => "" |}.

(** Every GET answers [r]. *)
Definition world_answering (r : response) : world :=
  {| session_get := fun _ _ _ _ => Responded r;
     json_loads := fun _ => Undecodable "Expecting value";
     repr_of := fun _ => "" |}.

Definition dq : string := String "034"%char "".

(** [s] between quotation marks, as in a JSON text *)
Definition quoted (s : string) : string := dq ++ s ++ dq.

(** The [n]-th GET is answered by the [n]-th response of the list (the last
    one is repeated); [json.loads] decodes the listed texts. *)
Definition world_of (answers : list response) (texts : list (string * json)) : world :=
  {| session_get := fun n _ _ _ =>
       match nth_error answers n with
       | Some r => Responded r
       | None => match rev answers with
                 | r :: _ => Responded r
                 | [] => Failed refused
                 end
       end;
     json_loads := fun s =>
       match lookup texts s with
       | Some v => Decoded v
       | None => Undecodable "Expecting value: line 1 column 1 (char 0)"
       end;
     repr_of := fun _ => "" |}.

Definition post (body : json) : list (string * json) :=
  [ ("httpMethod", JStr "POST"); ("body", body) ].

(** The page of a short link; the API then answers [api_text]. *)
Definition douyin_world (api_text : string) (api_value : json) : world :=
  world_of [ plain_response 302 [("Location", "https://www.douyin.com/video/7123456789012345678")] "";
             plain_response 200 [] api_text ]
           [ (api_text, api_value) ].

Definition douyin_event : list (string * json) :=
  post (JDict [ ("url", JStr "https://v.douyin.com/abc/") ]).

(** [{"item_list":[{"desc":"clip","video":{"play_addr":{"url_list":[...]},
    "duration":12345},"author":{"nickname":"doro"}}]}] *)
Definition api_text_ok : string :=
  "{" ++ quoted "item_list" ++ ":[{" ++ quoted "desc" ++ ":" ++ quoted "clip" ++ ","
  ++ quoted "video" ++ ":{" ++ quoted "play_addr" ++ ":{" ++ quoted "url_list" ++ ":["
  ++ quoted "https://aweme.snssdk.com/aweme/v1/play/?video_id=v0200&watermark=1&ratio=720p"
  ++ "]}," ++ quoted "duration" ++ ":12345}," ++ quoted "author" ++ ":{"
  ++ quoted "nickname" ++ ":" ++ quoted "doro" ++ "}}]}".

Definition api_value_ok : json :=
  JDict [ ("item_list",
           JList [ JDict [ ("desc", JStr "clip");
                           ("video",
                            JDict [ ("play_addr",
                                     JDict [ ("url_list",
                                              JList [ JStr "https://aweme.snssdk.com/aweme/v1/play/?video_id=v0200&watermark=1&ratio=720p" ]) ]);
                                    ("duration", JInt 12345) ]);
                           ("author", JDict [ ("nickname", JStr "doro") ]) ] ]) ].

(** [{"item_list":[1]}]: the first item is not an object. *)
Definition api_text_odd : string := "{" ++ quoted "item_list" ++ ":[1]}".

Definition api_value_odd : json := JDict [ ("item_list", JList [ JInt 1 ]) ].


Definition kuaishou_event : list (string * json) :=
  post (JDict [ ("url", JStr "https://www.kuaishou.com/short-video/3x123456789") ]).





(** [{"url": null}] *)
Definition body_text_null_url : string := "{" ++ quoted "url" ++ ": null}".

(** [{"note":{"noteDetailMap":{"a1":{"note":{"type":"normal"}},
    "b2":{"note":{"type":"video","title":"walk", ...}}}}}] *)
Definition state_two_notes : json :=
  JDict [ ("note",
           JDict [ ("noteDetailMap",
                    JDict [ ("a1", JDict [ ("note", JDict [ ("type", JStr "normal") ]) ]);
                            ("b2",
                             JDict [ ("note",
                                      JDict [ ("type", JStr "video");
                                              ("title", JStr "walk");
                                              ("video",
                                               JDict [ ("media",
                                                        JDict [ ("videoKey",
                                                                 JStr "pre/1040g0k") ]) ]) ]) ]) ]) ]) ].

(** * Properties *)

(** ** Facts about strings *)

Section StringFacts.


Lemma append_empty_r (a : string) : a ++ "" = a.
Proof. induction a as [|x a IH]; simpl; [reflexivity | now rewrite IH]. Qed.

Lemma length_append (a b : string) :
  String.length (a ++ b) = String.length a + String.length b.
Proof. induction a as [|x a IH]; simpl; [reflexivity | now rewrite IH]. Qed.

Lemma append_inv_head (a b c : string) : a ++ b = a ++ c -> b = c.
Proof. induction a as [|x a IH]; simpl; intros H; [assumption | inversion H; auto]. Qed.

Lemma append_eq_length (a b c d : string) :
  a ++ b = c ++ d -> String.length a = String.length c -> a = c /\ b = d.
Proof.
  revert c; induction a as [|x a IH]; intros [|y c]; simpl; intros H L;
    try discriminate; [now split|].
  inversion H; subst. destruct (IH c) as [-> ->]; auto.
Qed.


Lemma starts_with_append (p t : string) : Str.starts_with p (p ++ t) = true.
Proof.
  induction p as [|x p IH]; simpl; [reflexivity|].
  now rewrite Ascii.eqb_refl, IH.
Qed.

Lemma starts_with_inv (p s : string) :
  Str.starts_with p s = true -> exists t, s = p ++ t.
Proof.
  revert s; induction p as [|x p IH]; intros s H; simpl in *.
  - now exists s.
  - destruct s as [|y s]; [discriminate|].
    apply andb_true_iff in H as [E H]. apply Ascii.eqb_eq in E; subst y.
    destruct (IH _ H) as [t ->]. now exists t.
Qed.

Lemma starts_with_iff (p s : string) :
  Str.starts_with p s = true <-> exists t, s = p ++ t.
Proof.
  split; [apply starts_with_inv | intros [t ->]; apply starts_with_append].
Qed.

Lemma contains_unfold (sub s : string) :
  Str.contains sub s =
  if Str.starts_with sub s then true
  else match s with
       | EmptyString => false
       | String _ t => Str.contains sub t
       end.
Proof. destruct s; reflexivity. Qed.

Lemma occurs_at_0 (sub s : string) :
  Str.occurs_at sub s 0 <-> Str.starts_with sub s = true.
Proof.
  rewrite starts_with_iff. split.
  - intros (pre & post & -> & L). destruct pre; [|discriminate]. now exists post.
  - intros [t ->]. now exists "", t.
Qed.

Lemma occurs_at_S (sub : string) (c : ascii) (s : string) (i : nat) :
  Str.occurs_at sub (String c s) (S i) <-> Str.occurs_at sub s i.
Proof.
  split.
  - intros (pre & post & E & L). destruct pre as [|x pre]; [discriminate|].
    simpl in *. inversion E; subst. exists pre, post. split; [reflexivity | lia].
  - intros (pre & post & -> & L). exists (String c pre), post.
    simpl. split; [reflexivity | now rewrite L].
Qed.

Lemma contains_occurs (sub s : string) :
  Str.contains sub s = true <-> Str.occurs sub s.
Proof.
  induction s as [|c s IH]; rewrite contains_unfold.
  - destruct (Str.starts_with sub "") eqn:E.
    + split; [intros _ | reflexivity]. exists 0. now apply occurs_at_0.
    + split; [discriminate|]. intros [i (pre & post & H & L)].
      destruct pre; [|discriminate]. subst i.
      assert (Str.occurs_at sub "" 0) as O by (now exists "", post).
      apply occurs_at_0 in O. congruence.
  - destruct (Str.starts_with sub (String c s)) eqn:E.
    + split; [intros _ | reflexivity]. exists 0. now apply occurs_at_0.
    + rewrite IH. split.
      * intros [i O]. exists (S i). now apply occurs_at_S.
      * intros [[|i] O]; [apply occurs_at_0 in O; congruence|].
        exists i. now apply occurs_at_S in O.
Qed.

Lemma lower_append (a b : string) : Str.lower (a ++ b) = Str.lower a ++ Str.lower b.
Proof. induction a as [|x a IH]; simpl; [reflexivity | now rewrite IH]. Qed.

Lemma lower_char_idempotent (c : ascii) :
  Str.lower_char (Str.lower_char c) = Str.lower_char c.
Proof. destruct c as [[] [] [] [] [] [] [] []]; reflexivity. Qed.

Lemma lower_idempotent (s : string) : Str.lower (Str.lower s) = Str.lower s.
Proof.
  induction s as [|c s IH]; simpl; [reflexivity|].
  now rewrite lower_char_idempotent, IH.
Qed.

Lemma occurs_nocase_lower (sub s : string) :
  Str.occurs_nocase sub s -> Str.occurs sub (Str.lower s).
Proof.
  intros (pre & mid & post & -> & <-).
  exists (String.length (Str.lower pre)), (Str.lower pre), (Str.lower post).
  now rewrite !lower_append.
Qed.

End StringFacts.

(** ** Classification *)

Section Classification.

Lemma any_domain_in_iff (domains : list string) (u : string) :
  any_domain_in domains u = true <-> domain_occurs domains u.
Proof.
  induction domains as [|d ds IH]; simpl.
  - split; [discriminate | intros (d & [] & _)].
  - destruct (Str.contains d u) eqn:E.
    + split; [intros _ | reflexivity].
      exists d. split; [now left | now apply contains_occurs].
    + rewrite IH. split.
      * intros (d' & I & O). exists d'. split; [now right | assumption].
      * intros (d' & [<- | I] & O).
        -- apply contains_occurs in O. congruence.
        -- now exists d'.
Qed.



End Classification.



(** ** Requests and retries *)

Section Retries.

Variable W : world.
Variable url : string.
Variable hs : list (string * string).
Variable follow : bool.

Lemma attempt_get_failed (k : nat) (msg : string) :
  session_get W k url hs follow = Failed msg -> attempt_fails W url hs follow k msg.
Proof. unfold attempt_fails, attempt_get. now intros ->. Qed.

Lemma attempt_get_counts (k : nat) : snd (attempt_get W url hs follow k) = S k.
Proof.
  unfold attempt_get. destruct (session_get W k url hs follow) as [r|m]; [|reflexivity].
  now destruct (raise_for_status r).
Qed.

Lemma raise_for_status_ok (r : response) :
  (status_code r < 400 \/ 600 <= status_code r)%Z -> raise_for_status r = Ok tt.
Proof.
  intros H. unfold raise_for_status.
  destruct (400 <=? status_code r)%Z eqn:A, (status_code r <? 500)%Z eqn:B,
           (500 <=? status_code r)%Z eqn:C, (status_code r <? 600)%Z eqn:D;
    simpl; try reflexivity; exfalso; lia.
Qed.

Lemma raise_for_status_error (r : response) :
  (400 <= status_code r < 600)%Z ->
  exists msg, raise_for_status r = Raise (RequestException msg).
Proof.
  intros H. unfold raise_for_status.
  destruct (400 <=? status_code r)%Z eqn:A, (status_code r <? 500)%Z eqn:B,
           (500 <=? status_code r)%Z eqn:C, (status_code r <? 600)%Z eqn:D;
    simpl; try (eexists; reflexivity); exfalso; lia.
Qed.

Lemma attempt_get_responded_ok (k : nat) (r : response) :
  session_get W k url hs follow = Responded r ->
  (status_code r < 400 \/ 600 <= status_code r)%Z ->
  attempt_get W url hs follow k = (Ok r, S k).
Proof.
  intros E H. unfold attempt_get. rewrite E. now rewrite raise_for_status_ok.
Qed.

Lemma attempt_get_responded_error (k : nat) (r : response) :
  session_get W k url hs follow = Responded r ->
  (400 <= status_code r < 600)%Z ->
  exists msg, raise_for_status r = Raise (RequestException msg)
              /\ attempt_fails W url hs follow k msg.
Proof.
  intros E H. destruct (raise_for_status_error r H) as [msg R].
  exists msg. split; [assumption|].
  unfold attempt_fails, attempt_get. now rewrite E, R.
Qed.

(** When every remaining iteration fails, the loop issues one GET per
    iteration and raises the failure of the last one. *)
Lemma retry_loop_exhausted (max_retries : nat) :
  forall todo attempt n (msg : nat -> string),
    attempt + todo = max_retries -> 1 <= todo ->
    (forall k, k < todo -> attempt_fails W url hs follow (n + k) (msg k)) ->
    retry_loop W url hs follow max_retries todo attempt n
    = (Raise (RequestException (msg (todo - 1))), n + todo).
Proof.
  induction todo as [|t IH]; intros attempt n msg Hsum Hpos Hfail; [lia|].
  simpl. pose proof (Hfail 0 ltac:(lia)) as H0.
  unfold attempt_fails in H0. rewrite Nat.add_0_r in H0. rewrite H0. simpl.
  destruct (attempt =? max_retries - 1)%nat eqn:E.
  - apply Nat.eqb_eq in E. assert (t = 0) as -> by lia.
    simpl. now rewrite Nat.add_1_r.
  - apply Nat.eqb_neq in E.
    assert (1 <= t) as Ht by lia.
    rewrite (IH (S attempt) (S n) (fun k => msg (S k))); try lia.
    + replace (t - 0) with (S (t - 1)) by lia. f_equal. lia.
    + intros k Hk. specialize (Hfail (S k) ltac:(lia)).
      now rewrite Nat.add_succ_r in Hfail.
Qed.

(** When the iterations before the [k]-th fail and the [k]-th one succeeds,
    the loop returns its response and issues no further GET. *)
Lemma retry_loop_succeeds (max_retries : nat) (r : response) :
  forall k todo attempt n,
    attempt + todo = max_retries -> k < todo ->
    (forall j, j < k -> exists m, attempt_fails W url hs follow (n + j) m) ->
    attempt_get W url hs follow (n + k) = (Ok r, S (n + k)) ->
    retry_loop W url hs follow max_retries todo attempt n = (Ok r, S (n + k)).
Proof.
  induction k as [|k IH]; intros todo attempt n Hsum Hk Hfail Hok;
    (destruct todo as [|t]; [lia|]); simpl.
  - rewrite Nat.add_0_r in *. now rewrite Hok.
  - destruct (Hfail 0 ltac:(lia)) as [m H0]. unfold attempt_fails in H0.
    rewrite Nat.add_0_r in H0. rewrite H0. simpl.
    destruct (attempt =? max_retries - 1)%nat eqn:E;
      [apply Nat.eqb_eq in E; lia|].
    rewrite (IH t (S attempt) (S n)); try lia.
    + f_equal. lia.
    + intros j Hj. destruct (Hfail (S j) ltac:(lia)) as [m' H'].
      exists m'. now rewrite Nat.add_succ_r in H'.
    + now replace (S n + k) with (n + S k) by lia.
Qed.

(** The loop issues at least one GET and at most one per iteration. *)
Lemma retry_loop_counts (max_retries : nat) :
  forall todo attempt n,
    1 <= todo ->
    n < snd (retry_loop W url hs follow max_retries todo attempt n) <= n + todo.
Proof.
  induction todo as [|t IH]; intros attempt n Hpos; [lia|].
  simpl. pose proof (attempt_get_counts n) as C.
  destruct (attempt_get W url hs follow n) as [[r|e] n1]; simpl in *; subst n1;
    [lia|].
  destruct (is_RequestException e); [|simpl; lia].
  destruct (attempt =? max_retries - 1)%nat; [simpl; lia|].
  destruct t as [|t']; [simpl; lia|].
  specialize (IH (S attempt) (S n) ltac:(lia)). lia.
Qed.

End Retries.

(** C3, as amended.  When each GET attempt fails with an error of the
    network layer, exactly [MAX_RETRIES] GETs are issued in all, the first
    attempt included, and the failure of the last one is raised; when the
    earlier attempts fail and a later one, up to the last, succeeds, its
    response is returned and no further GET is issued.  In every world the
    number of GETs issued lies between one and [MAX_RETRIES]. *)
Theorem make_request_attempts (W : world) (url : string)
    (headers : option (list (string * string))) (follow : bool) (n : nat) :
  (forall msg : nat -> string,
      (forall k, k < Config.MAX_RETRIES ->
                 session_get W (n + k) url (request_headers headers) follow
                 = Failed (msg k)) ->
      make_request W url headers follow n
      = (Raise (RequestException (msg (Config.MAX_RETRIES - 1))),
         n + Config.MAX_RETRIES))
  /\ (forall k r,
         k < Config.MAX_RETRIES ->
         (forall j, j < k ->
                    exists m, attempt_fails W url (request_headers headers) follow (n + j) m) ->
         attempt_get W url (request_headers headers) follow (n + k) = (Ok r, S (n + k)) ->
         make_request W url headers follow n = (Ok r, S (n + k)))
  /\ 1 <= gets_issued (make_request W url headers follow) n <= Config.MAX_RETRIES.
Proof.
  split; [|split].
  - intros msg H. unfold make_request, make_request_with.
    apply retry_loop_exhausted; [reflexivity | unfold Config.MAX_RETRIES; lia |].
    intros k Hk. apply attempt_get_failed. now apply H.
  - intros k r Hk Hfail Hok. unfold make_request, make_request_with.
    now apply retry_loop_succeeds.
  - unfold gets_issued, make_request, make_request_with.
    pose proof (retry_loop_counts W url (request_headers headers) follow
                  Config.MAX_RETRIES (todo := Config.MAX_RETRIES) 0 n
                  ltac:(unfold Config.MAX_RETRIES; lia)) as C.
    unfold request_headers in C. lia.
Qed.

Lemma make_request_attempts_witness :
  make_request world_down "https://v.douyin.com/abc/" None true 0
  = (Raise (RequestException refused), 3)
  /\ make_request (world_up_after 2 (plain_response 200 [] "ok"))
       "https://v.douyin.com/abc/" None true 0
     = (Ok (plain_response 200 [] "ok"), 3).
Proof.
  split.
  - apply (proj1 (make_request_attempts world_down "https://v.douyin.com/abc/"
                    None true 0) (fun _ => refused)).
    intros k _. reflexivity.
  - apply (proj1 (proj2 (make_request_attempts
                           (world_up_after 2 (plain_response 200 [] "ok"))
                           "https://v.douyin.com/abc/" None true 0)) 2).
    + unfold Config.MAX_RETRIES. lia.
    + intros j Hj. exists refused. apply attempt_get_failed. simpl.
      destruct j as [|[|j]]; [reflexivity | reflexivity | lia].
    + reflexivity.
Defined.

(** C3 as stated fails: with [MAX_RETRIES = 3] the loop stops after three
    GETs, that is two retries after the first attempt, and a fourth attempt
    that would succeed is never made. *)
Lemma make_request_retries_counterexample :
  Config.MAX_RETRIES = 3
  /\ gets_issued (make_request world_down "https://v.douyin.com/abc/" None true) 0 = 3
  /\ session_get (world_up_after 3 (plain_response 200 [] "ok")) 3
       "https://v.douyin.com/abc/" default_headers true
     = Responded (plain_response 200 [] "ok")
  /\ make_request (world_up_after 3 (plain_response 200 [] "ok"))
       "https://v.douyin.com/abc/" None true 0
     = (Raise (RequestException refused), 3).
Proof. repeat split. Qed.

(** C7, as amended.  A response whose status is a client or server error
    (400 to 599) is a failure of the attempt: it is retried, and the error
    of the last attempt is raised when all attempts answer so.  A response
    with any other status is returned as it is by the attempt that received
    it; in particular a 301 or 302 received with redirects disabled is
    returned with its status and headers, and no further GET is issued. *)
Theorem make_request_status (W : world) (url : string)
    (headers : option (list (string * string))) (follow : bool) (n : nat) :
  (forall rs : nat -> response,
      (forall k, k < Config.MAX_RETRIES ->
                 session_get W (n + k) url (request_headers headers) follow
                 = Responded (rs k)
                 /\ (400 <= status_code (rs k) < 600)%Z) ->
      exists msg,
        raise_for_status (rs (Config.MAX_RETRIES - 1)) = Raise (RequestException msg)
        /\ make_request W url headers follow n
           = (Raise (RequestException msg), n + Config.MAX_RETRIES))
  /\ (forall r,
         session_get W n url (request_headers headers) follow = Responded r ->
         (status_code r < 400 \/ 600 <= status_code r)%Z ->
         make_request W url headers follow n = (Ok r, S n))
  /\ (forall r,
         follow = false ->
         session_get W n url (request_headers headers) follow = Responded r ->
         (status_code r = 301 \/ status_code r = 302)%Z ->
         make_request W url headers follow n = (Ok r, S n)).
Proof.
  assert (forall r,
             session_get W n url (request_headers headers) follow = Responded r ->
             (status_code r < 400 \/ 600 <= status_code r)%Z ->
             make_request W url headers follow n = (Ok r, S n)) as Hok.
  { intros r E H. unfold make_request, make_request_with.
    replace (S n) with (S (n + 0)) by lia.
    apply retry_loop_succeeds; [reflexivity | unfold Config.MAX_RETRIES; lia | lia |].
    rewrite Nat.add_0_r. now apply attempt_get_responded_ok. }
  split; [|split].
  - intros rs H.
    assert (forall k, k < Config.MAX_RETRIES ->
                      exists m, raise_for_status (rs k) = Raise (RequestException m)
                                /\ attempt_fails W url (request_headers headers) follow (n + k) m)
      as Hf.
    { intros k Hk. destruct (H k Hk) as [E S]. now apply attempt_get_responded_error. }
    destruct (Hf 0 ltac:(unfold Config.MAX_RETRIES; lia)) as (m0 & R0 & F0).
    destruct (Hf 1 ltac:(unfold Config.MAX_RETRIES; lia)) as (m1 & R1 & F1).
    destruct (Hf 2 ltac:(unfold Config.MAX_RETRIES; lia)) as (m2 & R2 & F2).
    exists m2. split; [exact R2|].
    unfold make_request, make_request_with.
    apply retry_loop_exhausted
      with (msg := fun k => match k with 0 => m0 | 1 => m1 | _ => m2 end);
      [reflexivity | unfold Config.MAX_RETRIES; lia |].
    intros [|[|[|k]]] Hk; try assumption. unfold Config.MAX_RETRIES in Hk. lia.
  - exact Hok.
  - intros r _ E [S | S]; apply Hok; try assumption; lia.
Qed.

Lemma make_request_status_witness :
  make_request
    (world_answering (plain_response 302 [("Location", "https://www.douyin.com/video/7")] ""))
    "https://v.douyin.com/abc/" None false 0
  = (Ok (plain_response 302 [("Location", "https://www.douyin.com/video/7")] ""), 1).
Proof.
  apply (proj2 (proj2 (make_request_status
                         (world_answering
                            (plain_response 302
                               [("Location", "https://www.douyin.com/video/7")] ""))
                         "https://v.douyin.com/abc/" None false 0))).
  - reflexivity.
  - reflexivity.
  - right. reflexivity.
Defined.

(** C7 as stated fails: a 304 answer, and a 307 answer received with
    redirects disabled, are neither 2xx nor the 301/302 exception, yet each
    is returned by the first attempt instead of being retried and raised. *)
Lemma make_request_non_2xx_counterexample :
  make_request (world_answering (plain_response 304 [] "")) "https://v.douyin.com/abc/"
    None true 0
  = (Ok (plain_response 304 [] ""), 1)
  /\ make_request (world_answering (plain_response 307 [] "")) "https://v.douyin.com/abc/"
       None false 0
     = (Ok (plain_response 307 [] ""), 1).
Proof. split; reflexivity. Qed.

(** ** The watermark flag *)

Section Replace.

Lemma replace_from_skip (old new a t : string) :
  Str.replace_from (String.length a) old new (a ++ t) = Str.replace_from 0 old new t.
Proof. induction a as [|c a IH]; simpl; [reflexivity | assumption]. Qed.

Lemma replace_match (old new t : string) :
  old <> "" -> Str.replace old new (old ++ t) = new ++ Str.replace old new t.
Proof.
  intros N. unfold Str.replace. destruct old as [|o old']; [congruence|].
  pose proof (starts_with_append (String o old') t) as Hs.
  change (String o old' ++ t) with (String o (old' ++ t)) in *.
  cbn [Str.replace_from]. rewrite Hs. cbn [String.length].
  replace (S (String.length old') - 1) with (String.length old') by lia.
  now rewrite replace_from_skip.
Qed.

Lemma replace_no_match (old new : string) (c : ascii) (t : string) :
  Str.starts_with old (String c t) = false ->
  Str.replace old new (String c t) = String c (Str.replace old new t).
Proof. intros Hs. unfold Str.replace. cbn [Str.replace_from]. now rewrite Hs. Qed.

End Replace.

Section Watermark.

(** A url either starts with the enabled flag or it does not: the scheme
    the rewriting follows. *)
Lemma flag_scan_ind (P : string -> Prop) :
  P "" ->
  (forall t, P t -> P (flag_on ++ t)) ->
  (forall c t, Str.starts_with flag_on (String c t) = false -> P t -> P (String c t)) ->
  forall s, P s.
Proof.
  intros H0 Hm Hn s.
  assert (forall n s, String.length s <= n -> P s) as G; [|now apply (G (String.length s))].
  clear s. induction n as [|n IH]; intros s L.
  - destruct s; [assumption | simpl in L; lia].
  - destruct s as [|c t]; [assumption|].
    destruct (Str.starts_with flag_on (String c t)) eqn:E.
    + apply starts_with_inv in E as [u E]. rewrite E. apply Hm. apply IH.
      rewrite E in L. rewrite length_append in L. simpl in L. lia.
    + apply Hn; [assumption|]. apply IH. simpl in L. lia.
Qed.

Lemma rewrite_watermark_match (t : string) :
  DouyinParser.rewrite_watermark (flag_on ++ t)
  = flag_off ++ DouyinParser.rewrite_watermark t.
Proof. unfold DouyinParser.rewrite_watermark. now apply (replace_match (old := flag_on)). Qed.

Lemma rewrite_watermark_no_match (c : ascii) (t : string) :
  Str.starts_with flag_on (String c t) = false ->
  DouyinParser.rewrite_watermark (String c t)
  = String c (DouyinParser.rewrite_watermark t).
Proof. apply replace_no_match. Qed.





End Watermark.


(** ** Identifier patterns *)

Section Search.

Variable here : string -> option string.
Variable Q : string -> string -> Prop.
Hypothesis here_iff : forall r d, here r = Some d <-> Q r d.









End Search.

Section Digits.










End Digits.



(** ** Strategies *)

Ltac rstep H :=
  match type of H with
  | rbind ?r _ = _ =>
      let E := fresh "E" in
      destruct r eqn:E; cbn [rbind] in H; [|discriminate H]
  | (if ?b then _ else _) = _ =>
      let E := fresh "E" in
      destruct b eqn:E; try discriminate H
  end.

Ltac truthy_hyps :=
  repeat match goal with
         | T : negb (truthy _) = false |- _ => apply negb_false_iff in T
         end.

Section Strategies.

Lemma rewrap_ok {A} (prefix : string) (c : M A) (n n' : nat) (a : A) :
  rewrap prefix c n = (Ok a, n') <-> c n = (Ok a, n').
Proof.
  unfold rewrap. destruct (c n) as [[x|e] m]; split; intros H; inversion H; reflexivity.
Qed.

Lemma rewrap_raise {A} (prefix : string) (c : M A) (n n' : nat) (e : exn) :
  c n = (Raise e, n') ->
  rewrap prefix c n = (Raise (ValueError (prefix ++ str_of_exn e)), n').
Proof. unfold rewrap. now intros ->. Qed.

Lemma rewrap_raises_ValueError {A} (prefix : string) (c : M A) (n n' : nat) (e : exn) :
  rewrap prefix c n = (Raise e, n') -> is_ValueError e = true.
Proof.
  unfold rewrap. destruct (c n) as [[x|e0] m]; intros H; inversion H. reflexivity.
Qed.

Lemma get_parser_bodies (platform : string) (parser : VideoParser) :
  get_parser platform = Some parser ->
  exists prefix body,
    In (platform, (prefix, body)) strategy_bodies
    /\ parse parser = fun W url => rewrap prefix (body W url).
Proof.
  unfold get_parser, parsers. cbn [lookup].
  destruct (String.eqb_spec "douyin" platform) as [<-|].
  { intros [= <-]. exists DouyinParser.error_prefix, DouyinParser.parse_body.
    split; [now left | reflexivity]. }
  destruct (String.eqb_spec "kuaishou" platform) as [<-|].
  { intros [= <-]. exists KuaishouParser.error_prefix, KuaishouParser.parse_body.
    split; [right; now left | reflexivity]. }
  destruct (String.eqb_spec "xiaohongshu" platform) as [<-|]; [|discriminate].
  intros [= <-]. exists XiaohongshuParser.error_prefix, XiaohongshuParser.parse_body.
  split; [right; right; now left | reflexivity].
Qed.

Lemma strategy_bodies_parser (platform prefix : string) (body : world -> string -> M json) :
  In (platform, (prefix, body)) strategy_bodies ->
  exists parser,
    get_parser platform = Some parser
    /\ parse parser = fun W url => rewrap prefix (body W url).
Proof.
  intros [H | [H | [H | []]]]; inversion H; subst; eexists; split; reflexivity.
Qed.

Lemma parse_raises_ValueError (platform : string) (parser : VideoParser)
    (W : world) (url : string) (n n' : nat) (e : exn) :
  get_parser platform = Some parser ->
  parse parser W url n = (Raise e, n') -> is_ValueError e = true.
Proof.
  intros G H. destruct (get_parser_bodies _ G) as (prefix & body & _ & E).
  rewrite E in H. now apply rewrap_raises_ValueError in H.
Qed.

(** The rewriting keeps the length, hence a non-empty url non-empty. *)
Lemma rewrite_watermark_length (s : string) :
  String.length (DouyinParser.rewrite_watermark s) = String.length s.
Proof.
  induction s as [|t IH|c t Hs IH] using flag_scan_ind.
  - reflexivity.
  - rewrite rewrite_watermark_match, !length_append, IH. reflexivity.
  - rewrite rewrite_watermark_no_match by assumption. simpl. now rewrite IH.
Qed.

Lemma truthy_str (s : string) : truthy (JStr s) = true <-> s <> "".
Proof.
  simpl. destruct (String.eqb_spec s ""); split; intros H; try congruence; try reflexivity.
  discriminate.
Qed.

Lemma py_replace_truthy (v w : json) :
  py_replace v "watermark=1" "watermark=0" = Ok w ->
  truthy v = true ->
  exists s, w = JStr s /\ s <> "".
Proof.
  destruct v; try discriminate. intros [= <-] T.
  eexists; split; [reflexivity|]. apply truthy_str in T.
  intros E. apply T.
  assert (String.length s = 0) as L.
  { rewrite <- (rewrite_watermark_length s).
    unfold DouyinParser.rewrite_watermark. now rewrite E. }
  now destruct s.
Qed.

Lemma douyin_extract_ok (video_id : string) (data r : json) :
  DouyinParser.extract video_id data = Ok r ->
  exists s, s <> "" /\ success_with (Ok r) (JStr s).
Proof.
  unfold DouyinParser.extract. intros H. repeat rstep H. truthy_hyps.
  match goal with
  | R : py_replace ?v _ _ = Ok ?w, T : truthy ?v = true |- _ =>
      destruct (@py_replace_truthy _ _ R T) as (s & -> & N)
  end.
  exists s. split; [assumption|]. inversion H.
  eexists. split; [reflexivity | split; reflexivity].
Qed.

Lemma kuaishou_extract_ok (W : world) (page_data r : json) :
  KuaishouParser.extract W page_data = Ok r ->
  exists u, truthy u = true /\ success_with (Ok r) u.
Proof.
  unfold KuaishouParser.extract. intros H. repeat rstep H. truthy_hyps.
  inversion H.
  match goal with
  | T : truthy ?u = true |- _ =>
      exists u; split; [exact T|];
      eexists; split; [reflexivity | split; reflexivity]
  end.
Qed.

Lemma xiaohongshu_extract_ok (W : world) (initial_state r : json) :
  XiaohongshuParser.extract W initial_state = Ok r ->
  exists u, truthy u = true /\ success_with (Ok r) u.
Proof.
  unfold XiaohongshuParser.extract. intros H.
  destruct (XiaohongshuParser._extract_note_data initial_state) as [nd|]; [|discriminate].
  repeat rstep H. truthy_hyps. inversion H.
  match goal with
  | T : truthy ?u = true |- _ =>
      exists u; split; [exact T|];
      eexists; split; [reflexivity | split; reflexivity]
  end.
Qed.

Lemma douyin_parse_ok (W : world) (url : string) (n n' : nat) (r : json) :
  DouyinParser.parse W url n = (Ok r, n') ->
  exists video_id data, DouyinParser.extract video_id data = Ok r.
Proof.
  unfold DouyinParser.parse. rewrite rewrap_ok.
  unfold DouyinParser.parse_body, bind, pure, raise.
  destruct (make_request W url None false n) as [[response|e] n1]; [|discriminate].
  destruct (DouyinParser._extract_video_id _) as [video_id|]; [|discriminate].
  destruct (String.eqb video_id ""); [discriminate|].
  destruct (make_request W _ _ true n1) as [[api|e] n2]; [|discriminate].
  destruct (loads W (text api)) as [data|e]; [|discriminate].
  intros [= H _]. now exists video_id, data.
Qed.

Lemma kuaishou_parse_ok (W : world) (url : string) (n n' : nat) (r : json) :
  KuaishouParser.parse W url n = (Ok r, n') ->
  exists page_data, KuaishouParser.extract W page_data = Ok r.
Proof.
  unfold KuaishouParser.parse. rewrite rewrap_ok.
  unfold KuaishouParser.parse_body, bind, pure, raise.
  destruct (make_request W url None true n) as [[response|e] n1]; [|discriminate].
  destruct (KuaishouParser.search_page_data _) as [script|]; [|discriminate].
  destruct (loads W script) as [data|e]; [|discriminate].
  intros [= H _]. now exists data.
Qed.

Lemma xiaohongshu_parse_ok (W : world) (url : string) (n n' : nat) (r : json) :
  XiaohongshuParser.parse W url n = (Ok r, n') ->
  exists initial_state, XiaohongshuParser.extract W initial_state = Ok r.
Proof.
  unfold XiaohongshuParser.parse. rewrite rewrap_ok.
  unfold XiaohongshuParser.parse_body, bind, pure, raise.
  destruct (make_request W url _ true n) as [[response|e] n1]; [|discriminate].
  destruct (XiaohongshuParser.search_state _) as [script|]; [|discriminate].
  destruct (loads W script) as [data|[]]; try discriminate.
  intros [= H _]. now exists data.
Qed.

End Strategies.

(** ** The handler *)

Section Handler.

Variable W : world.
Variable event : list (string * json).

Lemma opt_eq_str_iff (v : option json) (s : string) :
  opt_eq_str v s = true <-> v = Some (JStr s).
Proof.
  destruct v as [[]|]; simpl; try (split; [discriminate | intros [=]]).
  rewrite String.eqb_eq. split; [now intros -> | now intros [= ->]].
Qed.

Lemma opt_eq_str_false (v : option json) (s : string) :
  opt_eq_str v s = false <-> v <> Some (JStr s).
Proof.
  rewrite <- opt_eq_str_iff. destruct (opt_eq_str v s); split; congruence.
Qed.

Lemma post_not_options : is_post event -> opt_eq_str (dict_get event "httpMethod") "OPTIONS" = false.
Proof. unfold is_post. now intros ->. Qed.

Lemma post_is_post : is_post event -> opt_eq_str (dict_get event "httpMethod") "POST" = true.
Proof. unfold is_post. now intros ->. Qed.

Lemma request_data_raise (e : exn) :
  request_data W event = Raise e -> exists m, e = JSONDecodeError m.
Proof.
  unfold request_data, loads.
  destruct (dict_get event "body") as [[]|]; try discriminate.
  destruct (json_loads W s); [discriminate|]. intros [= <-]. now eexists.
Qed.

Lemma first_platform_in (platforms : list (string * list string)) (u p : string) :
  first_platform platforms u = Some p -> In p (map fst platforms).
Proof.
  induction platforms as [|[q ds] rest IH]; simpl; [discriminate|].
  destruct (any_domain_in ds u); [intros [= ->]; now left | intros H; right; auto].
Qed.

Lemma platform_registered (url platform : string) :
  get_platform_from_url url = Some platform ->
  In platform ["douyin"; "kuaishou"; "xiaohongshu"; "bilibili"; "weishi"].
Proof. intros H. apply first_platform_in in H. exact H. Qed.

Lemma platform_not_empty (url platform : string) :
  get_platform_from_url url = Some platform -> String.eqb platform "" = false.
Proof.
  intros H. apply platform_registered in H. simpl in H.
  repeat (destruct H as [<- | H]; [reflexivity|]). destruct H.
Qed.


Lemma handler_asks_for (url : string) (n : nat) :
  asks_for W event url -> handler W event n = answer W url n.
Proof.
  intros (P & data & D & U). unfold handler, handler_body, answer.
  rewrite (post_not_options P), (post_is_post P). cbn [negb].
  rewrite D. unfold bind, pure. rewrite U.
  destruct (String.eqb url ""); [reflexivity|].
  destruct (get_platform_from_url url) as [platform|] eqn:G; [|reflexivity].
  rewrite (@platform_not_empty url platform G).
  destruct (get_parser platform) as [parser|] eqn:Gp; [|reflexivity].
  destruct (parse parser W url n) as [[record|e] n'] eqn:R; [reflexivity|].
  now rewrite (@parse_raises_ValueError platform parser W url n n' e Gp R).
Qed.

Lemma handler_fault (data : json) (e : exn) (n : nat) :
  is_post event -> request_data W event = Ok data -> requested_url data = Raise e ->
  handler W event n = (failure 500 msg_internal, n).
Proof.
  intros P D U. unfold handler, handler_body.
  rewrite (post_not_options P), (post_is_post P). cbn [negb].
  rewrite D. unfold bind, pure. now rewrite U.
Qed.

Lemma handler_unparsable (m : string) (n : nat) :
  is_post event -> request_data W event = Raise (JSONDecodeError m) ->
  handler W event n = (failure 400 msg_malformed, n).
Proof.
  intros P D. unfold handler, handler_body.
  rewrite (post_not_options P), (post_is_post P). cbn [negb].
  now rewrite D.
Qed.

Lemma asks_for_unique (u v : string) : asks_for W event u -> asks_for W event v -> u = v.
Proof. intros (_ & d & D & U) (_ & d' & D' & U'). congruence. Qed.


End Handler.

Section Table.

Variable W : world.



Lemma behaviour_sound (event : list (string * json)) (n : nat) (r : http_response * nat) :
  behaviour W event n r -> handler W event n = r.
Proof.
  intros B. destruct B as [O | O P | m P D | A | url A N G | url platform A N G Gp
                           | url platform parser e n' A N G Gp R
                           | url platform parser record n' A N G Gp R
                           | data e P D U].
  - unfold handler, handler_body. now rewrite O.
  - apply opt_eq_str_false in O. apply opt_eq_str_false in P.
    unfold handler, handler_body. now rewrite O, P.
  - now apply handler_unparsable with (m := m).
  - now rewrite (handler_asks_for n A).
  - rewrite (handler_asks_for n A). unfold answer.
    apply String.eqb_neq in N. now rewrite N, G.
  - rewrite (handler_asks_for n A). unfold answer.
    apply String.eqb_neq in N. now rewrite N, G, Gp.
  - rewrite (handler_asks_for n A). unfold answer.
    apply String.eqb_neq in N. now rewrite N, G, Gp, R.
  - rewrite (handler_asks_for n A). unfold answer.
    apply String.eqb_neq in N. now rewrite N, G, Gp, R.
  - now apply handler_fault with (data := data) (e := e).
Qed.

Lemma behaviour_complete (event : list (string * json)) (n : nat) :
  behaviour W event n (handler W event n).
Proof.
  assert (forall r, behaviour W event n r -> behaviour W event n (handler W event n)) as K.
  { intros r B. now rewrite (behaviour_sound B). }
  destruct (opt_eq_str (dict_get event "httpMethod") "OPTIONS") eqn:O.
  { apply opt_eq_str_iff in O. eapply K. apply on_preflight; assumption. }
  apply opt_eq_str_false in O.
  destruct (opt_eq_str (dict_get event "httpMethod") "POST") eqn:P.
  2:{ apply opt_eq_str_false in P. eapply K. apply on_other_method; assumption. }
  apply opt_eq_str_iff in P. fold (is_post event) in P.
  destruct (request_data W event) as [data|e] eqn:D.
  2:{ destruct (request_data_raise _ _ D) as [m ->]. eapply K.
      apply on_unparsable_body with (m := m); assumption. }
  destruct (requested_url data) as [url|e] eqn:U.
  2:{ eapply K. apply on_internal_fault with (data := data) (e := e); assumption. }
  assert (asks_for W event url) as A by (split; [assumption | now exists data]).
  destruct (String.eqb_spec url "") as [->|N].
  { eapply K. apply on_missing_url; assumption. }
  destruct (get_platform_from_url url) as [platform|] eqn:G.
  2:{ eapply K. apply on_unknown_platform with (url := url); assumption. }
  destruct (get_parser platform) as [parser|] eqn:Gp.
  2:{ eapply K. apply on_unregistered_strategy with (url := url) (platform := platform); assumption. }
  destruct (parse parser W url n) as [[record|e] n'] eqn:R.
  - eapply K. apply on_strategy_success with (url := url) (platform := platform)
                                               (parser := parser); eassumption.
  - eapply K. apply on_strategy_failure with (url := url) (platform := platform)
                                               (parser := parser) (e := e); eassumption.
Qed.

End Table.



(** C10.  When the url field of the decoded request body holds a value
    that is not a string, the handler answers 500 with the generic message:
    not the 400 of a missing url, nor the 400 of a malformed request.  The
    cause is the [AttributeError] that stripping the value raises, an
    internal fault that only the outermost handler catches. *)
Theorem non_string_url_is_internal_error (W : world) (event : list (string * json))
    (n : nat) (d : list (string * json)) (v : json) :
  is_post event ->
  request_data W event = Ok (JDict d) ->
  dict_get d "url" = Some v ->
  (forall s, v <> JStr s) ->
  handler W event n = (failure 500 msg_internal, n)
  /\ handler W event n <> (failure 400 msg_url_required, n)
  /\ handler W event n <> (failure 400 msg_malformed, n)
  /\ requested_url (JDict d) = Raise (no_attribute v "strip")
  /\ is_internal_fault (no_attribute v "strip") = true.
Proof.
  intros P D U N.
  assert (requested_url (JDict d) = Raise (no_attribute v "strip")) as R.
  { unfold requested_url, py_get. cbn [rbind]. rewrite U.
    destruct v; try reflexivity. exfalso. now apply (N s). }
  assert (handler W event n = (failure 500 msg_internal, n)) as H.
  { now apply handler_fault with (data := JDict d) (e := no_attribute v "strip"). }
  rewrite H. repeat split; try discriminate. exact R.
Qed.

Lemma non_string_url_is_internal_error_witness :
  handler world_down (post (JDict [ ("url", JInt 5) ])) 0 = (failure 500 msg_internal, 0)
  /\ handler (world_of [] [ (body_text_null_url, JDict [ ("url", JNull) ]) ])
       (post (JStr body_text_null_url)) 0
     = (failure 500 msg_internal, 0).
Proof.
  split.
  - refine (proj1 (@non_string_url_is_internal_error world_down
                     (post (JDict [ ("url", JInt 5) ])) 0 [ ("url", JInt 5) ] (JInt 5)
                     _ _ _ _));
      [reflexivity | reflexivity | reflexivity | discriminate].
  - refine (proj1 (@non_string_url_is_internal_error
                     (world_of [] [ (body_text_null_url, JDict [ ("url", JNull) ]) ])
                     (post (JStr body_text_null_url)) 0 [ ("url", JNull) ] JNull
                     _ _ _ _));
      [reflexivity | reflexivity | reflexivity | discriminate].
Defined.

(** C4, as amended.  Every exception raised while a strategy executes, an
    internal fault as well as a failure of the strategy's own or of the
    network, is caught by the strategy and raised again as a [ValueError]
    whose message is the prefix of the strategy followed by the text of the
    exception; the handler answers it with 400 and that message.  The
    generic 500 is never the answer to an exception raised while a strategy
    executes. *)
Theorem strategy_faults_are_rewrapped (W : world) (event : list (string * json))
    (n : nat) (url platform prefix : string) (body : world -> string -> M json) :
  asks_for W event url -> url <> "" ->
  get_platform_from_url url = Some platform ->
  In (platform, (prefix, body)) strategy_bodies ->
  (forall e n', body W url n = (Raise e, n') ->
                handler W event n = (failure 400 (prefix ++ str_of_exn e), n'))
  /\ (forall record n', body W url n = (Ok record, n') ->
                        handler W event n = (respond 200 record, n'))
  /\ statusCode (fst (handler W event n)) <> 500%Z.
Proof.
  intros A N G I.
  destruct (strategy_bodies_parser I) as (parser & Gp & E).
  assert (handler W event n
          = match rewrap prefix (body W url) n with
            | (Ok record, n') => (respond 200 record, n')
            | (Raise e, n') => (failure 400 (str_of_exn e), n')
            end) as H.
  { rewrite (handler_asks_for n A). unfold answer.
    apply String.eqb_neq in N. now rewrite N, G, Gp, E. }
  rewrite H. unfold rewrap. split; [|split].
  - intros e n' R. now rewrite R.
  - intros record n' R. now rewrite R.
  - destruct (body W url n) as [[record|e] n']; simpl; discriminate.
Qed.

Lemma strategy_faults_are_rewrapped_witness :
  handler (douyin_world api_text_odd api_value_odd) douyin_event 0
  = (failure 400 (DouyinParser.error_prefix ++ "'int' object has no attribute 'get'"), 2).
Proof.
  refine (proj1 (@strategy_faults_are_rewrapped
                   (douyin_world api_text_odd api_value_odd) douyin_event 0
                   "https://v.douyin.com/abc/" "douyin"
                   DouyinParser.error_prefix DouyinParser.parse_body _ _ _ _)
                (AttributeError "'int' object has no attribute 'get'") 2 _).
  - split; [reflexivity|]. eexists. split; reflexivity.
  - discriminate.
  - reflexivity.
  - left. reflexivity.
  - reflexivity.
Defined.

(** C4 as stated fails: when the first item of the API answer is not an
    object, reading it raises an [AttributeError], an internal fault; the
    strategy relabels it and the handler answers 400 with the text of the
    fault, not the generic 500. *)
Lemma internal_fault_counterexample :
  DouyinParser.parse_body (douyin_world api_text_odd api_value_odd)
    "https://v.douyin.com/abc/" 0
  = (Raise (AttributeError "'int' object has no attribute 'get'"), 2)
  /\ is_internal_fault (AttributeError "'int' object has no attribute 'get'") = true
  /\ handler (douyin_world api_text_odd api_value_odd) douyin_event 0
     = (failure 400 "抖音视频解析失败: 'int' object has no attribute 'get'", 2)
  /\ statusCode (fst (handler (douyin_world api_text_odd api_value_odd) douyin_event 0))
     = 400%Z.
Proof. repeat split. Qed.







(** ** End-to-end scenarios *)

(** A short link whose API answer holds one item is resolved: 200, with the
    file name built from the identifier and the duration in seconds. *)
Example scenario_resolved :
  let (r, gets) := handler (douyin_world api_text_ok api_value_ok) douyin_event 0 in
  statusCode r = 200%Z
  /\ gets = 2
  /\ match body r with
     | JDict fields =>
         dict_get fields "success" = Some (JBool true)
         /\ dict_get fields "filename" = Some (JStr "douyin_7123456789012345678.mp4")
         /\ dict_get fields "download_url"
            = Some (JStr "https://aweme.snssdk.com/aweme/v1/play/?video_id=v0200&watermark=0&ratio=720p")
         /\ dict_get fields "duration" = Some (JFloat (inject_Z 12345 / 1000)%Q)
     | _ => False
     end.
Proof. vm_compute. repeat split. Qed.

(** A url of no registered platform is refused with 400. *)
Example scenario_unsupported :
  handler world_down (post (JDict [ ("url", JStr "https://example.com/video/1") ])) 0
  = (failure 400 msg_unsupported, 0).
Proof. reflexivity. Qed.

(** When the network is down the strategy fails after three GETs and the
    handler answers 400 with the message of the last failure. *)
Example scenario_network_down :
  handler world_down douyin_event 0
  = (failure 400 (DouyinParser.error_prefix ++ refused), 3).
Proof. reflexivity. Qed.

(** * Further properties *)

(** ** What a request returns and what it raises *)

Section RequestOutcomes.

Variable W : world.
Variable url : string.
Variable hs : list (string * string).
Variable follow : bool.




End RequestOutcomes.




(** ** Use of the network *)

Section NetworkUse.

Variable W : world.







End NetworkUse.




(** ** Answers of the handler *)

Section Answers.

Variable W : world.

Lemma parse_ok_success (platform : string) (parser : VideoParser) (url : string)
    (n n' : nat) (record : json) :
  get_parser platform = Some parser ->
  parse parser W url n = (Ok record, n') ->
  exists u, success_with (Ok record) u /\ truthy u = true.
Proof.
  unfold get_parser, parsers. cbn [lookup].
  destruct (String.eqb_spec "douyin" platform) as [<-|N1].
  { intros [= <-] R. cbn [parse] in R.
    apply douyin_parse_ok in R as (video_id & data & X).
    apply douyin_extract_ok in X as (s & Ns & S).
    exists (JStr s). split; [assumption | now apply truthy_str]. }
  destruct (String.eqb_spec "kuaishou" platform) as [<-|N2].
  { intros [= <-] R. cbn [parse] in R.
    apply kuaishou_parse_ok in R as (data & X).
    apply kuaishou_extract_ok in X as (u & T & S). now exists u. }
  destruct (String.eqb_spec "xiaohongshu" platform) as [<-|N3]; [|discriminate].
  intros [= <-] R. cbn [parse] in R.
  apply xiaohongshu_parse_ok in R as (data & X).
  apply xiaohongshu_extract_ok in X as (u & T & S). now exists u.
Qed.

Lemma handler_same_request (e1 e2 : list (string * json)) (n : nat) :
  dict_get e1 "httpMethod" = dict_get e2 "httpMethod" ->
  dict_get e1 "body" = dict_get e2 "body" ->
  handler W e1 n = handler W e2 n.
Proof.
  intros Hm Hb. unfold handler, handler_body, request_data. now rewrite Hm, Hb.
Qed.





End Answers.

(** X5.  Every answer of the handler carries the cross-origin headers and
    the JSON content type; its status is 200, 400, 405 or 500; and unless
    the request is a preflight, a status 200 comes with [success] true and
    any other status with the failure body, a false [success] and a
    message. *)
Theorem handler_answer_shape (W : world) (event : list (string * json)) (n : nat) :
  headers (fst (handler W event n)) = cors_headers
  /\ In (statusCode (fst (handler W event n))) [200; 400; 405; 500]%Z
  /\ (dict_get event "httpMethod" <> Some (JStr "OPTIONS") ->
      (statusCode (fst (handler W event n)) = 200%Z ->
       body_success (body (fst (handler W event n))) = Some (JBool true))
      /\ (statusCode (fst (handler W event n)) <> 200%Z ->
          is_failure_body (body (fst (handler W event n))))).
Proof.
  pose proof (behaviour_complete W event n) as B.
  remember (handler W event n) as h eqn:Hh. clear Hh.
  destruct B as [O | O P | m P D | A | url A N G | url platform A N G Gp
                 | url platform parser e n' A N G Gp R
                 | url platform parser record n' A N G Gp R
                 | data e P D U];
    cbn [fst snd statusCode headers body failure respond];
    (split; [reflexivity|]); (split; [simpl; tauto|]); intros NO;
    try (split; [intros H; discriminate H | intros _; eexists; reflexivity]).
  - contradiction.
  - destruct (@parse_ok_success W platform parser url n n' record Gp R)
      as (u & (fields & [= ->] & S & _) & _).
    split; [intros _; exact S | intros H; now exfalso].
Qed.

(** X6.  The handler reads two fields of the event only, the method and the
    body: two events that agree on them are answered alike, whatever else
    they hold. *)
Theorem handler_reads_method_and_body (W : world) (e1 e2 : list (string * json))
    (n : nat) :
  dict_get e1 "httpMethod" = dict_get e2 "httpMethod" ->
  dict_get e1 "body" = dict_get e2 "body" ->
  handler W e1 n = handler W e2 n.
Proof. apply handler_same_request. Qed.

Lemma handler_reads_method_and_body_witness :
  handler world_down
    [ ("path", JStr "/.netlify/functions/parser"); ("httpMethod", JStr "POST");
      ("body", JDict [ ("url", JStr "https://example.com/video/1") ]);
      ("isBase64Encoded", JBool false) ] 0
  = handler world_down (post (JDict [ ("url", JStr "https://example.com/video/1") ])) 0.
Proof.
  apply (@handler_reads_method_and_body world_down
           [ ("path", JStr "/.netlify/functions/parser"); ("httpMethod", JStr "POST");
             ("body", JDict [ ("url", JStr "https://example.com/video/1") ]);
             ("isBase64Encoded", JBool false) ]
           (post (JDict [ ("url", JStr "https://example.com/video/1") ])) 0);
    reflexivity.
Defined.

(** X7.  A body given as a JSON text and a body given as the mapping the
    text decodes to are treated alike, provided the decoded value is not
    itself a text. *)
Theorem handler_body_text_or_mapping (W : world) (body_text : string) (v : json)
    (n : nat) :
  json_loads W body_text = Decoded v ->
  (forall s, v <> JStr s) ->
  handler W (post (JStr body_text)) n = handler W (post v) n.
Proof.
  intros D N. unfold handler, handler_body, request_data, post, loads.
  cbn [dict_get String.eqb Ascii.eqb Bool.eqb andb]. rewrite D.
  destruct v; try reflexivity. exfalso. now apply (N s).
Qed.

Lemma handler_body_text_or_mapping_witness :
  handler (world_of [] [ (body_text_null_url, JDict [ ("url", JNull) ]) ])
    (post (JStr body_text_null_url)) 0
  = handler (world_of [] [ (body_text_null_url, JDict [ ("url", JNull) ]) ])
      (post (JDict [ ("url", JNull) ])) 0.
Proof.
  apply (@handler_body_text_or_mapping
           (world_of [] [ (body_text_null_url, JDict [ ("url", JNull) ]) ])
           body_text_null_url (JDict [ ("url", JNull) ]) 0).
  - reflexivity.
  - discriminate.
Defined.



(** ** Priority of the first platform *)

(** X9.  The registry is searched in order and by containment anywhere in
    the url, so a url that contains a domain of the first platform, in any
    letter case and at any place, is classified to it, whatever other
    domains it contains; and a classified url is always classified to one
    of the five registered names. *)
Theorem first_platform_wins (pre mid post : string) :
  In (Str.lower mid) ["douyin.com"; "dy.com"; "iesdouyin.com"] ->
  get_platform_from_url (pre ++ mid ++ post) = Some "douyin"
  /\ forall url platform,
       get_platform_from_url url = Some platform ->
       In platform ["douyin"; "kuaishou"; "xiaohongshu"; "bilibili"; "weishi"].
Proof.
  intros I. split; [|apply platform_registered].
  unfold get_platform_from_url, Config.SUPPORTED_PLATFORMS. cbn [first_platform].
  assert (any_domain_in ["douyin.com"; "dy.com"; "iesdouyin.com"]
            (Str.lower (pre ++ mid ++ post)) = true) as ->; [|reflexivity].
  apply any_domain_in_iff. exists (Str.lower mid). split; [assumption|].
  apply occurs_nocase_lower. now exists pre, mid, post.
Qed.

Lemma first_platform_wins_witness :
  get_platform_from_url "https://www.kuaishou.com/share?from=https://V.DouYin.com/abc/"
  = Some "douyin".
Proof.
  refine (proj1 (@first_platform_wins "https://www.kuaishou.com/share?from=https://V."
                   "DouYin.com" "/abc/" _)).
  simpl. left. reflexivity.
Defined.

(** ** The first strategy *)

Section Douyin.








End Douyin.




(** X12.  The first strategy rejects an API answer that it cannot use with
    a message of its own: an answer whose [item_list] is absent or empty is
    malformed; an answer whose first item has no video, no play address or
    no non-empty list of urls has no download url. *)
Theorem douyin_extract_failures (video_id : string) (d : list (string * json)) :
  (yields_nothing d "item_list" ->
   DouyinParser.extract video_id (JDict d) = Raise (ValueError "API响应格式错误"))
  /\ (forall item rest,
         dict_get d "item_list" = Some (JList (JDict item :: rest)) ->
         absent_or_object item "video" ->
         absent_or_object (object_or_empty item "video") "play_addr" ->
         yields_nothing (object_or_empty (object_or_empty item "video") "play_addr")
           "url_list" ->
         DouyinParser.extract video_id (JDict d)
         = Raise (ValueError "无法获取视频下载链接")).
Proof.
  split.
  - intros Y. unfold DouyinParser.extract, py_in, py_item. cbn [rbind].
    destruct (dict_get d "item_list") as [x|] eqn:E; cbn [negb rbind]; [|reflexivity].
    now rewrite (Y x E).
  - intros item rest E Av Ap Y.
    unfold DouyinParser.extract, py_in, py_item. cbn [rbind]. rewrite E.
    cbn [negb rbind truthy py_item0 py_get].
    unfold absent_or_object, object_or_empty in *.
    destruct (dict_get item "video") as [v|] eqn:Ev; [|reflexivity].
    destruct (Av v eq_refl) as [vf ->]. cbn [rbind py_get].
    destruct (dict_get vf "play_addr") as [p|] eqn:Ep; [|reflexivity].
    destruct (Ap p eq_refl) as [pf ->]. cbn [rbind].
    destruct (dict_get pf "url_list") as [l|] eqn:El; cbn [rbind]; [|reflexivity].
    now rewrite (Y l El).
Qed.

Lemma douyin_extract_failures_witness :
  DouyinParser.extract "7" (JDict [ ("status_code", JInt 0); ("item_list", JList []) ])
  = Raise (ValueError "API响应格式错误")
  /\ DouyinParser.extract "7"
       (JDict [ ("item_list", JList [ JDict [ ("desc", JStr "clip") ] ]) ])
     = Raise (ValueError "无法获取视频下载链接").
Proof.
  split.
  - apply (proj1 (douyin_extract_failures "7"
                    [ ("status_code", JInt 0); ("item_list", JList []) ])).
    intros u [= <-]. reflexivity.
  - apply (proj2 (douyin_extract_failures "7"
                    [ ("item_list", JList [ JDict [ ("desc", JStr "clip") ] ]) ])
             [ ("desc", JStr "clip") ] []).
    + reflexivity.
    + intros x [=].
    + intros x [=].
    + intros x [=].
Defined.

(** X13.  An API answer whose first item holds a video with a play address
    whose first url is a non-empty text is resolved: the record carries
    that url with the watermark flag rewritten, and the optional fields
    take their defaults when absent (a stock title, an empty author, a zero
    duration).  Only the first item and the first url are read. *)
Theorem douyin_extract_succeeds (video_id u : string)
    (d item v p : list (string * json)) (rest us : list json) :
  dict_get d "item_list" = Some (JList (JDict item :: rest)) ->
  dict_get item "video" = Some (JDict v) ->
  dict_get v "play_addr" = Some (JDict p) ->
  dict_get p "url_list" = Some (JList (JStr u :: us)) ->
  u <> "" ->
  absent_or_object item "author" ->
  (forall x, dict_get v "duration" = Some x ->
             exists z, x = JInt z /\ (Z.abs z < truediv_overflow)%Z) ->
  DouyinParser.extract video_id (JDict d)
  = Ok (JDict [ ("success", JBool true);
                ("title", field_or item "desc" (JStr "抖音视频"));
                ("download_url", JStr (DouyinParser.rewrite_watermark u));
                ("platform", JStr "抖音");
                ("video_id", JStr video_id);
                ("author", field_or (object_or_empty item "author") "nickname" (JStr ""));
                ("duration",
                 JFloat (inject_Z (match dict_get v "duration" with
                                   | Some (JInt z) => z
                                   | _ => 0%Z
                                   end) / 1000)%Q);
                ("size", JStr "未知");
                ("filename", JStr ("douyin_" ++ video_id ++ ".mp4")) ]).
Proof.
  intros E Ev Ep El Nu Aa Dd.
  assert (String.eqb u "" = false) as Tu by (now apply String.eqb_neq).
  unfold DouyinParser.extract, py_in, py_item. cbn [rbind]. rewrite E.
  cbn [negb rbind truthy py_item0 py_get]. rewrite Ev. cbn [rbind py_get].
  rewrite Ep. cbn [rbind]. rewrite El. cbn [rbind truthy py_item0].
  rewrite Tu. cbn [negb py_replace rbind].
  unfold field_or, object_or_empty, absent_or_object in *.
  destruct (dict_get item "author") as [a|] eqn:Ea.
  - destruct (Aa a eq_refl) as [af ->]. cbn [rbind py_get].
    destruct (dict_get v "duration") as [x|] eqn:Ed.
    + destruct (Dd x eq_refl) as (z & -> & Hz). cbn [rbind py_div_1000].
      apply Z.ltb_lt in Hz. now rewrite Hz.
    + reflexivity.
  - cbn [rbind py_get dict_get].
    destruct (dict_get v "duration") as [x|] eqn:Ed.
    + destruct (Dd x eq_refl) as (z & -> & Hz). cbn [rbind py_div_1000].
      apply Z.ltb_lt in Hz. now rewrite Hz.
    + reflexivity.
Qed.

Lemma douyin_extract_succeeds_witness :
  DouyinParser.extract "7123456789012345678" api_value_ok
  = Ok (JDict [ ("success", JBool true);
                ("title", JStr "clip");
                ("download_url",
                 JStr (DouyinParser.rewrite_watermark
                         "https://aweme.snssdk.com/aweme/v1/play/?video_id=v0200&watermark=1&ratio=720p"));
                ("platform", JStr "抖音");
                ("video_id", JStr "7123456789012345678");
                ("author", JStr "doro");
                ("duration", JFloat (inject_Z 12345 / 1000)%Q);
                ("size", JStr "未知");
                ("filename", JStr ("douyin_" ++ "7123456789012345678" ++ ".mp4")) ]).
Proof.
  pose (p := [ ("url_list",
                JList [ JStr "https://aweme.snssdk.com/aweme/v1/play/?video_id=v0200&watermark=1&ratio=720p" ]) ]).
  pose (v := [ ("play_addr", JDict p); ("duration", JInt 12345) ]).
  pose (item := [ ("desc", JStr "clip"); ("video", JDict v);
                  ("author", JDict [ ("nickname", JStr "doro") ]) ]).
  refine (@douyin_extract_succeeds "7123456789012345678"
            "https://aweme.snssdk.com/aweme/v1/play/?video_id=v0200&watermark=1&ratio=720p"
            [ ("item_list", JList [ JDict item ]) ] item v p [] []
            eq_refl eq_refl eq_refl eq_refl _ _ _).
  - discriminate.
  - intros x [= <-]. now eexists.
  - intros x [= <-]. exists 12345%Z. split; [reflexivity|]. vm_compute. reflexivity.
Defined.

(** ** The second strategy *)

(** X14.  The second strategy reports each way a page can fail with a
    message of its own after its prefix: a failed fetch with the text of
    the network failure; a page without the inline assignment; a captured
    text that does not decode, with the message of the decoder; page data
    that is not an object, with the text of the fault; page data whose
    video info is absent or empty. *)
Theorem kuaishou_page_failures (W : world) (url : string) (n : nat) :
  (forall e n1,
      make_request W url None true n = (Raise e, n1) ->
      KuaishouParser.parse W url n
      = (Raise (ValueError (KuaishouParser.error_prefix ++ str_of_exn e)), n1))
  /\ (forall response n1,
         make_request W url None true n = (Ok response, n1) ->
         (KuaishouParser.search_page_data (text response) = None ->
          KuaishouParser.parse W url n
          = (Raise (ValueError (KuaishouParser.error_prefix ++ "无法找到页面数据")), n1))
         /\ (forall script m,
                KuaishouParser.search_page_data (text response) = Some script ->
                json_loads W script = Undecodable m ->
                KuaishouParser.parse W url n
                = (Raise (ValueError (KuaishouParser.error_prefix ++ m)), n1))
         /\ (forall script v,
                KuaishouParser.search_page_data (text response) = Some script ->
                json_loads W script = Decoded v ->
                (forall fields, v <> JDict fields) ->
                KuaishouParser.parse W url n
                = (Raise (ValueError (KuaishouParser.error_prefix
                                        ++ str_of_exn (no_attribute v "get"))), n1))
         /\ (forall script page_data,
                KuaishouParser.search_page_data (text response) = Some script ->
                json_loads W script = Decoded (JDict page_data) ->
                yields_nothing page_data "videoInfo" ->
                KuaishouParser.parse W url n
                = (Raise (ValueError (KuaishouParser.error_prefix
                                        ++ "页面数据中无视频信息")), n1))).
Proof.
  unfold KuaishouParser.parse, rewrap, KuaishouParser.parse_body, bind, pure, raise, loads.
  split.
  - intros e n1 R. now rewrite R.
  - intros response n1 R. rewrite R. split; [|split; [|split]].
    + now intros ->.
    + intros script m -> D. now rewrite D.
    + intros script v -> D N. rewrite D.
      destruct v; try reflexivity. exfalso. now apply (N d).
    + intros script page_data -> D Y. rewrite D.
      unfold KuaishouParser.extract, py_get. cbn [rbind].
      destruct (dict_get page_data "videoInfo") as [x|] eqn:E; [|reflexivity].
      now rewrite (Y x E).
Qed.

Lemma kuaishou_page_failures_witness :
  KuaishouParser.parse
    (world_of [ plain_response 200 [] "<html><body>moved</body></html>" ] [])
    "https://www.kuaishou.com/short-video/3x123456789" 0
  = (Raise (ValueError (KuaishouParser.error_prefix ++ "无法找到页面数据")), 1).
Proof.
  refine (proj1 (proj2 (kuaishou_page_failures
                          (world_of [ plain_response 200 []
                                        "<html><body>moved</body></html>" ] [])
                          "https://www.kuaishou.com/short-video/3x123456789" 0)
                   (plain_response 200 [] "<html><body>moved</body></html>") 1 eq_refl)
                _).
  reflexivity.
Defined.

(** X15.  A record of the second strategy is returned exactly for page
    data whose video info is a non-empty object with a non-empty url, and
    it is built from that object alone: the title, the author and the
    photo id of the file name are read from it, each with its default when
    the field is absent. *)
Theorem kuaishou_record (W : world) (page_data : list (string * json)) (record : json) :
  KuaishouParser.extract W (JDict page_data) = Ok record <->
  exists video_info u,
    dict_get page_data "videoInfo" = Some (JDict video_info)
    /\ video_info <> []
    /\ KuaishouParser.select_video_url (JDict video_info) = Ok u
    /\ truthy u = true
    /\ record
       = JDict [ ("success", JBool true);
                 ("title", field_or video_info "title" (JStr "快手视频"));
                 ("download_url", u);
                 ("platform", JStr "快手");
                 ("author", field_or video_info "userName" (JStr ""));
                 ("size", JStr "未知");
                 ("filename",
                  JStr ("kuaishou_"
                          ++ py_str W (field_or video_info "photoId" (JStr "video"))
                          ++ ".mp4")) ].
Proof.
  unfold KuaishouParser.extract. cbn [py_get rbind]. split.
  - destruct (dict_get page_data "videoInfo") as [vi|] eqn:E; [|discriminate].
    destruct (truthy vi) eqn:T; cbn [negb]; [|discriminate].
    destruct (KuaishouParser.select_video_url vi) as [u|e] eqn:S; cbn [rbind];
      [|discriminate].
    destruct (truthy u) eqn:Tu; cbn [negb]; [|discriminate].
    destruct vi as [| | | | | |video_info];
      try (unfold KuaishouParser.select_video_url in S; discriminate S).
    cbn [py_get rbind]. intros [= <-].
    exists video_info, u. repeat split; try assumption.
    intros ->. discriminate T.
  - intros (video_info & u & E & N & S & Tu & ->). rewrite E.
    assert (truthy (JDict video_info) = true) as -> by (now destruct video_info).
    cbn [negb]. rewrite S. cbn [rbind]. rewrite Tu. reflexivity.
Qed.

(** ** The third strategy *)

Section Notes.


Lemma first_video_note_skips (before rest : list (string * json)) :
  (forall id info, In (id, info) before -> is_other_note info) ->
  XiaohongshuParser.first_video_note (before ++ rest)%list
  = XiaohongshuParser.first_video_note rest.
Proof.
  induction before as [|[id info] before IH]; intros H; [reflexivity|].
  destruct (H id info (or_introl eq_refl)) as (fields & -> & A & T).
  cbn [app XiaohongshuParser.first_video_note py_get rbind].
  unfold field_or, object_or_empty, absent_or_object in *.
  destruct (dict_get fields "note") as [x|] eqn:E.
  - destruct (A x eq_refl) as [nt ->]. cbn [py_get rbind]. rewrite T.
    apply IH. intros id' info' I. apply (H id' info'). now right.
  - cbn [py_get rbind]. cbn [dict_get] in T. cbn [dict_get]. rewrite T.
    apply IH. intros id' info' I. apply (H id' info'). now right.
Qed.

Lemma first_video_note_found (id : string) (info : json) (note : list (string * json))
    (after : list (string * json)) :
  is_video_note info note -> well_formed_note note ->
  XiaohongshuParser.first_video_note ((id, info) :: after)
  = Ok (Some (note_record id note)).
Proof.
  intros (fields & -> & En & Et) (Av & Au & Am).
  cbn [XiaohongshuParser.first_video_note py_get rbind]. rewrite En.
  cbn [py_get rbind]. rewrite Et. cbn [eq_str]. rewrite String.eqb_refl.
  unfold note_record, video_key, field_or, object_or_empty, absent_or_object in *.
  destruct (dict_get note "video") as [v|] eqn:Ev;
    [destruct (Av v eq_refl) as [vf ->]|];
    (destruct (dict_get note "user") as [us|] eqn:Eu;
     [destruct (Au us eq_refl) as [uf ->]|]);
    cbn [py_get rbind dict_get];
    try (destruct (dict_get vf "media") as [m|] eqn:Em;
         [destruct (Am m eq_refl) as [mf ->]|]);
    reflexivity.
Qed.


Lemma extract_note_data_map (state : json) (items : list (string * json)) :
  note_map state items ->
  XiaohongshuParser._extract_note_data state
  = match XiaohongshuParser.first_video_note items with
    | Ok r => r
    | Raise _ => None
    end.
Proof.
  intros (st & nd & -> & E1 & E2). unfold XiaohongshuParser._extract_note_data.
  cbn [py_get rbind]. rewrite E1. cbn [py_get rbind]. now rewrite E2.
Qed.

End Notes.



(** X17.  The third strategy considers the first video note only: when
    that note has no video key the strategy fails, whatever the later
    notes hold; otherwise the record carries the key as download url and
    the note id in the file name.  The title of the record is the title of
    the note or the empty text: the stock title of the strategy is never
    used. *)
Theorem xiaohongshu_first_video_only (W : world) (state : json)
    (before after : list (string * json)) (id : string) (info : json)
    (note : list (string * json)) :
  note_map state (before ++ (id, info) :: after)%list ->
  (forall id' info', In (id', info') before -> is_other_note info') ->
  is_video_note info note -> well_formed_note note ->
  (truthy (video_key note) = false ->
   XiaohongshuParser.extract W state = Raise (ValueError "无法获取视频下载链接"))
  /\ (truthy (video_key note) = true ->
      XiaohongshuParser.extract W state
      = Ok (JDict [ ("success", JBool true);
                    ("title", field_or note "title" (JStr ""));
                    ("download_url", video_key note);
                    ("platform", JStr "小红书");
                    ("author", field_or (object_or_empty note "user") "nickname" (JStr ""));
                    ("size", JStr "未知");
                    ("filename", JStr ("xiaohongshu_" ++ id ++ ".mp4")) ])).
Proof.
  intros M Hb V Wf.
  assert (XiaohongshuParser._extract_note_data state = Some (note_record id note)) as E.
  { rewrite (extract_note_data_map M).
    rewrite first_video_note_skips by assumption.
    now rewrite (first_video_note_found id after V Wf). }
  unfold XiaohongshuParser.extract. rewrite E. unfold note_record.
  cbn [truthy negb py_get rbind dict_get String.eqb Ascii.eqb Bool.eqb andb].
  split; intros T; rewrite T; reflexivity.
Qed.

Lemma xiaohongshu_first_video_only_witness :
  XiaohongshuParser.extract world_down state_two_notes
  = Ok (JDict [ ("success", JBool true);
                ("title", JStr "walk");
                ("download_url", JStr "pre/1040g0k");
                ("platform", JStr "小红书");
                ("author", JStr "");
                ("size", JStr "未知");
                ("filename", JStr ("xiaohongshu_" ++ "b2" ++ ".mp4")) ]).
Proof.
  refine (proj2 (@xiaohongshu_first_video_only world_down state_two_notes
                   [ ("a1", JDict [ ("note", JDict [ ("type", JStr "normal") ]) ]) ]
                   [] "b2" _
                   [ ("type", JStr "video"); ("title", JStr "walk");
                     ("video",
                      JDict [ ("media", JDict [ ("videoKey", JStr "pre/1040g0k") ]) ]) ]
                   _ _ _ _) eq_refl).
  - eexists. eexists. split; [reflexivity|]. split; reflexivity.
  - intros id' info' [[= <- <-] | []].
    eexists. split; [reflexivity|]. split; [|reflexivity].
    intros x [= <-]. now eexists.
  - eexists. split; [reflexivity|]. split; reflexivity.
  - repeat split; intros x; cbn; intros [= <-]; now eexists.
Defined.


(** ** The inline assignments of the pages *)

Section Assignments.






End Assignments.

